(** * EmotiBit -> You:Quantified converter

    A shallow embedding of [emotibit_yq_app.py]: the metadata parser
    ([load_emotibit_json]), the reshaper ([parse_emotibit_csv]), the folder
    writer ([write_yq_folder]), the matcher ([find_emotibit_sessions]) and the
    conversion handler at module level, followed by the properties the
    specification states about them.

    Conventions.
    - Text is ASCII: a Python [str] is a [string] of bytes, and [str.lower],
      [str.strip], [int] and [float] are modelled on ASCII text.
    - A Python [float] is a binary64 number, Rocq's primitive [float].
    - A Python [int] is a [Z].
    - Code that may raise returns [res A]: [Ok a] or [Raise e] with the class
      of the exception.
    - File-system failures (permissions, full disk) are outside the model. *)

From Stdlib Require Import ZArith List String Ascii Bool Lia Floats.
From Stdlib Require Import QArith Qround Qpower.
From Stdlib Require Import Sorting.Sorted.
From Stdlib Require Uint63.
Import ListNotations.

Set Warnings "-register-all,-inexact-float".

Open Scope string_scope.
Open Scope Z_scope.

(** ** The Python layer: exceptions, text and numbers *)

Module Py.

(** The exception classes the program can meet. *)
Inductive exn : Type :=
| ValueError | TypeError | KeyError | IndexError
| AttributeError | OverflowError | ZeroDivisionError | OSError.

Inductive res (A : Type) : Type :=
| Ok (a : A)
| Raise (e : exn).
Arguments Ok {A} a.
Arguments Raise {A} e.

Definition bind {A B : Type} (m : res A) (k : A -> res B) : res B :=
  match m with
  | Ok a => k a
  | Raise e => Raise e
  end.

Definition is_ok {A : Type} (m : res A) : bool :=
  match m with Ok _ => true | Raise _ => false end.

(** *** str *)

(** The ASCII characters [str.strip] and [str.isspace] treat as white space:
    tab to carriage return, the four separators 28..31, and the space. *)
Definition is_space (c : ascii) : bool :=
  let n := nat_of_ascii c in
  (((9 <=? n) && (n <=? 13)) || ((28 <=? n) && (n <=? 32)))%nat.

Fixpoint lstrip (s : string) : string :=
  match s with
  | EmptyString => EmptyString
  | String c s' => if is_space c then lstrip s' else s
  end.

Fixpoint rstrip (s : string) : string :=
  match s with
  | EmptyString => EmptyString
  | String c s' =>
      match rstrip s' with
      | EmptyString => if is_space c then EmptyString else String c EmptyString
      | r => String c r
      end
  end.

(** [s.strip()] *)
Definition strip (s : string) : string := rstrip (lstrip s).

(** [s.split(sep)] for a one-character separator: never an empty list. *)
Fixpoint split (sep : ascii) (s : string) : list string :=
  match s with
  | EmptyString => [EmptyString]
  | String c s' =>
      if Ascii.eqb c sep then EmptyString :: split sep s'
      else match split sep s' with
           | p :: ps => String c p :: ps
           | [] => [String c EmptyString]
           end
  end.

Definition lower_ascii (c : ascii) : ascii :=
  let n := nat_of_ascii c in
  if ((65 <=? n) && (n <=? 90))%nat then ascii_of_nat (n + 32) else c.

(** [s.lower()] *)
Fixpoint lower (s : string) : string :=
  match s with
  | EmptyString => EmptyString
  | String c s' => String (lower_ascii c) (lower s')
  end.

(** [s.replace(a, b)] for one-character [a]. *)
Fixpoint replace (a : ascii) (b : string) (s : string) : string :=
  match s with
  | EmptyString => EmptyString
  | String c s' =>
      if Ascii.eqb c a then b ++ replace a b s' else String c (replace a b s')
  end.

(** [s.startswith(p)] *)
Fixpoint startswith (p s : string) : bool :=
  match p, s with
  | EmptyString, _ => true
  | String _ _, EmptyString => false
  | String a p', String c s' => Ascii.eqb a c && startswith p' s'
  end.

(** [s.find(sub)]: the first index where [sub] occurs, [None] for Python's -1. *)
Fixpoint find (sub s : string) : option nat :=
  if startswith sub s then Some O
  else match s with
       | EmptyString => None
       | String _ s' => option_map S (find sub s')
       end.

(** [sub in s] *)
Definition contains (sub s : string) : bool :=
  match find sub s with Some _ => true | None => false end.

(** [s.endswith(p)] *)
Definition endswith (p s : string) : bool :=
  let n := String.length s in
  let k := String.length p in
  (k <=? n)%nat && String.eqb (substring (n - k) k s) p.

(** [s[:n]] *)
Definition prefix_to (n : nat) (s : string) : string := substring 0 n s.

(** [x in l] for a list of str. *)
Definition in_str (x : string) (l : list string) : bool :=
  existsb (String.eqb x) l.

(** *** int(str) *)

Definition is_digit (c : ascii) : bool :=
  let n := nat_of_ascii c in ((48 <=? n) && (n <=? 57))%nat.

Definition digit_val (c : ascii) : Z := Z.of_nat (nat_of_ascii c - 48).

(** The digits of [digit (["_"] digit)*] at the head of [s], and what follows.
    An underscore not followed by a digit ends the digits and stays in the
    rest. *)
Fixpoint digit_run (s : string) : list Z * string :=
  match s with
  | EmptyString => ([], EmptyString)
  | String c s' =>
      if is_digit c then
        let (ds, r) := digit_run s' in (digit_val c :: ds, r)
      else if Ascii.eqb c "_" then
        match s' with
        | String c2 s'' =>
            if is_digit c2 then
              let (ds, r) := digit_run s'' in (digit_val c2 :: ds, r)
            else ([], s)
        | EmptyString => ([], s)
        end
      else ([], s)
  end.

(** [digitpart ::= digit (["_"] digit)*]: [None] when [s] does not start with
    a digit. *)
Definition digitpart (s : string) : option (list Z * string) :=
  match s with
  | String c s' =>
      if is_digit c then
        let (ds, r) := digit_run s' in Some (digit_val c :: ds, r)
      else None
  | EmptyString => None
  end.

Definition of_digits (ds : list Z) : Z :=
  fold_left (fun acc d => 10 * acc + d) ds 0.

(** An optional sign: [true] for "-". *)
Definition sign_of (s : string) : bool * string :=
  match s with
  | String c s' =>
      if Ascii.eqb c "-" then (true, s')
      else if Ascii.eqb c "+" then (false, s')
      else (false, s)
  | EmptyString => (false, s)
  end.

(** [int(s)] in base 10: white space around, a sign, digits with single
    underscores between them. (The interpreter's limit on the number of
    digits is not modelled.) *)
Definition int_of_str (s : string) : res Z :=
  let (neg, body) := sign_of (strip s) in
  match digitpart body with
  | Some (ds, EmptyString) =>
      Ok (if neg then - of_digits ds else of_digits ds)
  | _ => Raise ValueError
  end.

(** *** float *)

(** The binary64 number nearest to [m * 10^e10] (ties to even), [m >= 0]. *)
Definition dec2sf (m e10 : Z) : spec_float :=
  match m with
  | Zpos p =>
      match e10 with
      | Zneg k =>
          SFdiv prec emax (S754_finite false p 0)
                (S754_finite false (Pos.pow 10 k) 0)
      | _ => binary_normalize prec emax (m * 10 ^ e10) 0 false
      end
  | _ => S754_zero false
  end.

(** [exponent ::= ("e" | "E") [sign] digitpart], absent when [s] is empty. *)
Definition exponent_of (s : string) : option Z :=
  match s with
  | EmptyString => Some 0
  | String c s' =>
      if Ascii.eqb c "e" || Ascii.eqb c "E" then
        let (neg, body) := sign_of s' in
        match digitpart body with
        | Some (ds, EmptyString) =>
            Some (if neg then - of_digits ds else of_digits ds)
        | _ => None
        end
      else None
  end.

(** [number ::= [digitpart] "." digitpart | digitpart ["."]], then the
    exponent: the decimal mantissa and the power of ten. *)
Definition decimal_of (s : string) : option (Z * Z) :=
  match digitpart s with
  | Some (ip, r) =>
      match r with
      | String "." r' =>
          match digitpart r' with
          | Some (fp, r'') =>
              option_map
                (fun e => (of_digits (ip ++ fp), e - Z.of_nat (List.length fp)))
                (exponent_of r'')
          | None => option_map (fun e => (of_digits ip, e)) (exponent_of r')
          end
      | _ => option_map (fun e => (of_digits ip, e)) (exponent_of r)
      end
  | None =>
      match s with
      | String "." r' =>
          match digitpart r' with
          | Some (fp, r'') =>
              option_map
                (fun e => (of_digits fp, e - Z.of_nat (List.length fp)))
                (exponent_of r'')
          | None => None
          end
      | _ => None
      end
  end.

(** [float(s)]: white space around, a sign, then "inf", "infinity", "nan" in
    any case or a decimal number, rounded to the nearest binary64. *)
Definition float_of_str (s : string) : res float :=
  let (neg, body) := sign_of (strip s) in
  let signed (f : float) := if neg then PrimFloat.opp f else f in
  let l := lower body in
  if String.eqb l "inf" || String.eqb l "infinity" then Ok (signed infinity)
  else if String.eqb l "nan" then Ok nan
  else match decimal_of body with
       | Some (m, e10) => Ok (signed (SF2Prim (dec2sf m e10)))
       | None => Raise ValueError
       end.

(** The binary64 number nearest to the integer [n] (ties to even). *)
Definition nearest_float (n : Z) : float :=
  SF2Prim (binary_normalize prec emax n 0 false).

(** [float(n)] for an int: the nearest binary64, or OverflowError. *)
Definition float_of_int (n : Z) : res float :=
  let f := nearest_float n in
  if is_infinity f then Raise OverflowError else Ok f.

(** The integer part of a finite binary64 [(-1)^s * m * 2^e], toward zero. *)
Definition trunc_finite (s : bool) (m : positive) (e : Z) : Z :=
  cond_Zopp s (Z.shiftl (Zpos m) e).

(** [int(x)] for a float: truncation toward zero. *)
Definition int_of_float (x : float) : res Z :=
  match Prim2SF x with
  | S754_nan => Raise ValueError
  | S754_infinity _ => Raise OverflowError
  | S754_zero _ => Ok 0
  | S754_finite s m e => Ok (trunc_finite s m e)
  end.

(** The nearest integer to [m * 2^e], ties to even. *)
Definition round_half_even (m : positive) (e : Z) : Z :=
  match e with
  | Zneg k =>
      let d := Z.pow_pos 2 k in
      let q := Zpos m / d in
      let r := Zpos m mod d in
      match Z.compare (2 * r) d with
      | Lt => q
      | Gt => q + 1
      | Eq => if Z.even q then q else q + 1
      end
  | _ => Z.shiftl (Zpos m) e
  end.

(** [round(x)] for a float, without [ndigits]: an int, ties to even. *)
Definition round (x : float) : res Z :=
  match Prim2SF x with
  | S754_nan => Raise ValueError
  | S754_infinity _ => Raise OverflowError
  | S754_zero _ => Ok 0
  | S754_finite s m e => Ok (cond_Zopp s (round_half_even m e))
  end.

End Py.

Import Py.

(** ** JSON documents as [json.load] returns them *)

(** A Python [dict] with [str] keys, in insertion order. *)
Definition dict (V : Type) : Type := list (string * V).

Fixpoint dict_get {V : Type} (k : string) (d : dict V) : option V :=
  match d with
  | [] => None
  | (k', v) :: d' => if String.eqb k k' then Some v else dict_get k d'
  end.

(** [d[k] = v]: the value is replaced where the key stands, or appended. *)
Fixpoint dict_set {V : Type} (k : string) (v : V) (d : dict V) : dict V :=
  match d with
  | [] => [(k, v)]
  | (k', v') :: d' =>
      if String.eqb k k' then (k', v) :: d' else (k', v') :: dict_set k v d'
  end.

Inductive json : Type :=
| JNull
| JBool (b : bool)
| JInt (n : Z)
| JFloat (f : float)
| JStr (s : string)
| JArr (l : list json)
| JObj (kv : list (string * json)).

(** Python's truth value: [if v], [not v], [a or b]. *)
Definition truthy (v : json) : bool :=
  match v with
  | JNull => false
  | JBool b => b
  | JInt n => negb (n =? 0)
  | JFloat f => negb (PrimFloat.eqb f 0)
  | JStr s => negb (String.eqb s "")
  | JArr l => match l with [] => false | _ => true end
  | JObj kv => match kv with [] => false | _ => true end
  end.

(** [a or b] *)
Definition py_or (a b : json) : json := if truthy a then a else b.

(** [o.get(k, default)]: only a dict has [get]. *)
Definition py_get (o : json) (k : string) (default : json) : res json :=
  match o with
  | JObj kv => Ok (match dict_get k kv with Some v => v | None => default end)
  | _ => Raise AttributeError
  end.

(** [for x in v]: a list gives its items, a str its characters, a dict its
    keys; nothing else is iterable. *)
Definition py_iter (v : json) : res (list json) :=
  match v with
  | JArr l => Ok l
  | JStr s => Ok (map (fun c => JStr (String c EmptyString)) (list_ascii_of_string s))
  | JObj kv => Ok (map (fun p => JStr (fst p)) kv)
  | _ => Raise TypeError
  end.

(** ** The host: what the interpreter and the platform decide

    [py_str v] is [str(v)] for a value that is not a str (the f-string of a
    channel label applies it to a stream name or tag that is a number, a
    list, ...). [strptime s] is
    [datetime.strptime(s, "%Y-%m-%d_%H-%M-%S-%f")], and [epoch_ms dt ms] is
    [int((dt + timedelta(milliseconds=ms)).timestamp() * 1000)], which reads
    the naive date in the local time zone. *)
Record host : Type := {
  py_str : json -> string;
  datetime : Type;
  strptime : string -> res datetime;
  epoch_ms : datetime -> Z -> res Z
}.

(** The extracted archive, as the program reads it: [json.load] of a file and
    the lines of a text file. *)
Record files : Type := {
  json_load : string -> res json;
  read_lines : string -> res (list string)
}.

(** A channel descriptor, the value [channels[tag]] of [load_emotibit_json]. *)
Record channel : Type := {
  label : string;
  nominal_srate : json;
  units : json;
  raw_info : json
}.

(** A Long Record, one item of [records] in [parse_emotibit_csv]. *)
Record record : Type := {
  timestamp : Z;
  tag : string;
  value : float
}.

Section Converter.

Variable H : host.

(** [f"{v}"] *)
Definition fmt (v : json) : string :=
  match v with
  | JStr s => s
  | _ => py_str H v
  end.

(** *** 1. JSON parsing *)

(** The inner loop [for tag in tags]. A tag that is a list or a dict cannot
    be a key (TypeError). A tag that is a number, a boolean or null becomes a
    key no text of the measurement file and no column label equals: the model
    keeps the str keys only. *)
Fixpoint register_tags (name sr units info : json) (tags : list json)
    (channels : dict channel) : res (dict channel) :=
  match tags with
  | [] => Ok channels
  | t :: rest =>
      let lbl := replace " " "" (fmt name ++ "_" ++ fmt t) in
      match t with
      | JStr s =>
          register_tags name sr units info rest
            (dict_set s {| label := lbl; nominal_srate := sr;
                           units := units; raw_info := info |} channels)
      | JArr _ | JObj _ => Raise TypeError
      | _ => register_tags name sr units info rest channels
      end
  end.

(** The body of [for entry in data[1:]]. *)
Definition register_stream (entry : json) (channels : dict channel)
    : res (dict channel) :=
  bind (py_get entry "info" (JObj [])) (fun info =>
  bind (py_get info "type" (JStr "Channel")) (fun ty =>
  bind (py_get info "name" ty) (fun name =>
  bind (py_get info "typeTags" (JArr [])) (fun tags =>
  bind (py_get info "nominal_srate" JNull) (fun sr =>
  bind (py_get info "units" JNull) (fun units =>
  bind (py_iter tags) (fun ts =>
  register_tags name sr units info ts channels))))))).

Fixpoint register_streams (entries : list json) (channels : dict channel)
    : res (dict channel) :=
  match entries with
  | [] => Ok channels
  | e :: rest =>
      bind (register_stream e channels) (register_streams rest)
  end.

(** [load_emotibit_json], from the document [json.load] returned. *)
Definition load_document (data : json) : res (dict json * dict channel) :=
  if negb (truthy data) then Raise ValueError
  else
    match data with
    | JArr (first :: rest) =>
        bind (py_get first "info" (JObj [])) (fun raw_meta =>
        bind (py_get raw_meta "name" JNull) (fun name =>
        bind (py_get raw_meta "source_id" JNull) (fun source_id =>
        bind (py_get raw_meta "type" JNull) (fun ty =>
        bind (py_get raw_meta "device_id" JNull) (fun dev_id =>
        let device_name :=
          py_or name (py_or source_id (py_or ty (JStr "UnknownDevice"))) in
        bind (if truthy dev_id then Ok dev_id
              else if truthy source_id then Ok source_id
              else match device_name with
                   | JStr s => Ok (JStr (replace " " "_" s))
                   | _ => Raise AttributeError
                   end) (fun device_id =>
        let device_meta :=
          dict_set "__device_id__" device_id
            (dict_set "__device_name__" device_name
               (match raw_meta with JObj kv => kv | _ => [] end)) in
        bind (register_streams rest []) (fun channels =>
        Ok (device_meta, channels))))))))
    | JArr [] => Raise ValueError
    | JStr _ => Raise AttributeError
    | JObj _ => Raise KeyError
    | _ => Raise TypeError
    end.

Definition load_emotibit_json (fs : files) (json_path : string)
    : res (dict json * dict channel) :=
  bind (json_load fs json_path) load_document.

(** *** 2. CSV parsing *)

(** [values[:n]] *)
Definition slice_to {A : Type} (n : Z) (l : list A) : list A :=
  if n <? 0 then firstn (Z.to_nat (Z.of_nat (List.length l) + n)) l
  else firstn (Z.to_nat n) l.

(** [ch_meta.get("nominal_srate") or 25.0] *)
Definition effective_rate (ch : channel) : json :=
  py_or (nominal_srate ch) (JFloat 25).

(** [x / sr] for a float [x]: a number divides (an int or a bool as the
    float it converts to), anything else is a TypeError; an int too large for
    a float is an OverflowError. *)
Definition as_float (v : json) : res float :=
  match v with
  | JFloat f => Ok f
  | JInt n => float_of_int n
  | JBool b => Ok (if b then 1%float else 0%float)
  | _ => Raise TypeError
  end.

Definition float_div (x : float) (sr : json) : res float :=
  bind (as_float sr) (fun d =>
  if PrimFloat.eqb d 0 then Raise ZeroDivisionError
  else Ok (PrimFloat.div x d)).

(** The float [(idx * 1.0 / sr) * 1000.0]. *)
Definition offset_ms (idx : nat) (sr : json) : res float :=
  bind (float_of_int (Z.of_nat idx)) (fun fi =>
  bind (float_div (PrimFloat.mul fi 1) sr) (fun q =>
  Ok (PrimFloat.mul q 1000))).

(** [int((idx * 1.0 / sr) * 1000.0)] *)
Definition sample_offset (idx : nat) (sr : json) : res Z :=
  bind (offset_ms idx sr) int_of_float.

(** [for idx, val in enumerate(values[:n_samples])], from index [idx] on. *)
Fixpoint emit_samples (base_ts_ms : Z) (tg : string) (sr : json) (idx : nat)
    (vals : list string) : res (list record) :=
  match vals with
  | [] => Ok []
  | val :: rest =>
      match float_of_str val with
      | Ok v =>
          bind (sample_offset idx sr) (fun off =>
          bind (emit_samples base_ts_ms tg sr (S idx) rest) (fun rs =>
          Ok ({| timestamp := base_ts_ms + off; tag := tg; value := v |} :: rs)))
      | Raise ValueError => emit_samples base_ts_ms tg sr (S idx) rest
      | Raise e => Raise e
      end
  end.

(** The body of [for line in f]: the Long Records one line adds. *)
Definition parse_line (base_dt : option (datetime H))
    (channels_meta : dict channel) (line : string) : res (list record) :=
  let line := strip line in
  if String.eqb line "" then Ok []
  else
    let parts := map strip (split "," line) in
    if (List.length parts <? 7)%nat then Ok []
    else
      match int_of_str (nth 0 parts "") with
      | Raise _ => Ok []
      | Ok system_ms =>
          let tg := nth 3 parts "" in
          let n_samples :=
            match int_of_str (nth 2 parts "") with
            | Ok n => n
            | Raise _ => 1
            end in
          let values := skipn 6 parts in
          match dict_get tg channels_meta with
          | None => Ok []
          | Some ch_meta =>
              let sr := effective_rate ch_meta in
              bind (match base_dt with
                    | Some dt => epoch_ms H dt system_ms
                    | None => Ok system_ms
                    end) (fun base_ts_ms =>
              emit_samples base_ts_ms tg sr 0 (slice_to n_samples values))
          end
      end.

(** The loop over the lines: [records] when the file is read. *)
Fixpoint parse_lines (base_dt : option (datetime H))
    (channels_meta : dict channel) (lines : list string) : res (list record) :=
  match lines with
  | [] => Ok []
  | l :: rest =>
      bind (parse_line base_dt channels_meta l) (fun rs =>
      bind (parse_lines base_dt channels_meta rest) (fun rs' =>
      Ok (rs ++ rs')%list))
  end.

(** [base_dt]: the recording start, when the descriptor has one. *)
Definition parse_created_at (device_created_at : json)
    : res (option (datetime H)) :=
  if truthy device_created_at then
    match device_created_at with
    | JStr s => bind (strptime H s) (fun dt => Ok (Some dt))
    | _ => Raise TypeError
    end
  else Ok None.

(** The Long Records of a measurement file. *)
Definition long_records (lines : list string) (device_created_at : json)
    (channels_meta : dict channel) : res (list record) :=
  bind (parse_created_at device_created_at) (fun base_dt =>
  parse_lines base_dt channels_meta lines).

(** *** The pandas calls of the reshaper

    A [DataFrame] is its columns in order, each a header and its values; an
    int64 column holds integers, a float64 column holds binary64 numbers, NaN
    standing for a missing cell. (Timestamps are taken to fit in 64 bits, as
    pandas stores them.) *)

Inductive column : Type :=
| IntCol (l : list Z)
| FloatCol (l : list float).

Definition DataFrame : Type := list (string * column).

Definition col_len (c : column) : nat :=
  match c with
  | IntCol l => List.length l
  | FloatCol l => List.length l
  end.

(** [len(df)] *)
Definition nrows (df : DataFrame) : nat :=
  match df with
  | [] => O
  | (_, c) :: _ => col_len c
  end.

(** [df.columns] *)
Definition headers (df : DataFrame) : list string := map fst df.

(** Insertion into a list kept strictly increasing for [cmp]. *)
Fixpoint insert_uniq {A : Type} (cmp : A -> A -> comparison) (x : A)
    (l : list A) : list A :=
  match l with
  | [] => [x]
  | y :: l' =>
      match cmp x y with
      | Lt => x :: l
      | Eq => l
      | Gt => y :: insert_uniq cmp x l'
      end
  end.

(** The distinct items of [l] in increasing order: a sorted index. *)
Definition sorted_uniq {A : Type} (cmp : A -> A -> comparison) (l : list A)
    : list A :=
  fold_right (insert_uniq cmp) [] l.

(** The values of the Long Records at one (timestamp, tag) pair, in order. *)
Definition group_values (rs : list record) (ts : Z) (tg : string)
    : list float :=
  map value
    (filter (fun r => (timestamp r =? ts) && String.eqb (tag r) tg) rs).

Definition not_nan (v : float) : bool := negb (is_nan v).

(** The sum of a list of floats, left to right. *)
Definition fsum (vs : list float) : float :=
  fold_left PrimFloat.add vs 0%float.

(** One step of the compensated (Kahan) sum of pandas' [group_mean]:
    [y = val - compensation; t = sumx + y; compensation = t - sumx - y],
    the compensation set back to 0 when it is NaN, and [sumx = t]. *)
Definition kahan_step (acc : float * float) (val : float) : float * float :=
  let y := PrimFloat.sub val (snd acc) in
  let t := PrimFloat.add (fst acc) y in
  let c := PrimFloat.sub (PrimFloat.sub t (fst acc)) y in
  (t, if is_nan c then 0%float else c).

(** The sum [group_mean] divides: the values in order, compensated. *)
Definition compensated_sum (vs : list float) : float :=
  fst (fold_left kahan_step vs (0%float, 0%float)).

(** The aggregate "mean" as pandas' [group_mean] computes it: the
    compensated sum of the values that are not NaN over their number, NaN
    when there is none. *)
Definition pd_mean (vs : list float) : float :=
  match filter not_nan vs with
  | [] => nan
  | xs =>
      PrimFloat.div (compensated_sum xs)
                    (nearest_float (Z.of_nat (List.length xs)))
  end.

(** [pivot_table(index="timestamp", columns="tag", values="value",
    aggfunc="mean")], then [sort_index()]: the sorted index and, for each tag
    in sorted order, its column of means, NaN where a timestamp has no value
    of the tag. The call leaves [dropna] at its default, True, under which
    pandas does not include columns whose entries are all NaN: a group whose
    mean is NaN is left out before the table is laid out, so a timestamp or a
    tag with no other group has no row or column. *)
Definition pivot_table (rs : list record)
    : list Z * list (string * list float) :=
  let kept :=
    filter (fun r => not_nan (pd_mean (group_values rs (timestamp r) (tag r))))
           rs in
  let index := sorted_uniq Z.compare (map timestamp kept) in
  let tags := sorted_uniq String.compare (map tag kept) in
  (index,
   map (fun tg => (tg, map (fun ts => pd_mean (group_values rs ts tg)) index))
       tags).

(** [(df_wide["timestamp"] - first_ts) / 1000.0] *)
Definition time_column (first_ts : Z) (index : list Z) : list float :=
  map (fun ts => PrimFloat.div (nearest_float (ts - first_ts)) 1000) index.

(** [df_wide.rename(columns=rename_map)], where [rename_map] holds the label
    of every key of [channels_meta] that is a column. *)
Definition rename (channels_meta : dict channel) (df : DataFrame)
    : DataFrame :=
  map (fun hc =>
         (match dict_get (fst hc) channels_meta with
          | Some meta => label meta
          | None => fst hc
          end, snd hc)) df.

(** From [if not records] to the end of [parse_emotibit_csv]. [reset_index]
    and [insert] refuse a column that exists already (ValueError), and
    [iloc[0]] fails on a table without rows (IndexError). *)
Definition wide_table (channels_meta : dict channel) (records : list record)
    : res DataFrame :=
  match records with
  | [] => Ok [("timestamp", IntCol [])]
  | _ =>
      let (index, cols) := pivot_table records in
      if in_str "timestamp" (map fst cols) then Raise ValueError
      else
        match index with
        | [] => Raise IndexError
        | first_ts :: _ =>
            if in_str "Time" (map fst cols) then Raise ValueError
            else
              Ok (rename channels_meta
                    (("timestamp", IntCol index)
                     :: ("Time", FloatCol (time_column first_ts index))
                     :: map (fun tc => (fst tc, FloatCol (snd tc))) cols))
        end
  end.

Definition parse_emotibit_csv (fs : files) (csv_path : string)
    (device_created_at : json) (channels_meta : dict channel)
    : res DataFrame :=
  bind (parse_created_at device_created_at) (fun base_dt =>
  bind (read_lines fs csv_path) (fun lines =>
  bind (parse_lines base_dt channels_meta lines) (fun records =>
  wide_table channels_meta records))).

(** *** 3. YQ writer *)

(** [Series.diff()] after its leading NaN: each value minus the one before.
    An int64 column is subtracted as integers and then stored as floats. *)
Fixpoint diff_from (prev : float) (l : list float) : list float :=
  match l with
  | [] => []
  | x :: l' => PrimFloat.sub x prev :: diff_from x l'
  end.

Fixpoint diff_from_int (prev : Z) (l : list Z) : list float :=
  match l with
  | [] => []
  | x :: l' => nearest_float (x - prev) :: diff_from_int x l'
  end.

(** [series.diff()] *)
Definition series_diff (c : column) : list float :=
  match c with
  | FloatCol [] | IntCol [] => []
  | FloatCol (x :: l) => nan :: diff_from x l
  | IntCol (x :: l) => nan :: diff_from_int x l
  end.

(** [series.dropna()] *)
Definition dropna (l : list float) : list float := filter not_nan l.

Fixpoint insert_float (x : float) (l : list float) : list float :=
  match l with
  | [] => [x]
  | y :: l' => if PrimFloat.leb x y then x :: l else y :: insert_float x l'
  end.

Definition sort_floats (l : list float) : list float :=
  fold_right insert_float [] l.

(** [series.median()] of values without NaN: the middle of the sorted values,
    or the mean of the two in the middle. *)
Definition median (l : list float) : float :=
  let s := sort_floats l in
  let n := List.length s in
  if Nat.even n then
    PrimFloat.div
      (PrimFloat.add (nth (n / 2 - 1) s nan) (nth (n / 2) s nan)) 2
  else nth (n / 2) s nan.

(** [sampling_rate_guess], lines 201-205. *)
Definition sampling_rate_guess (device_df : DataFrame) : res Z :=
  match dict_get "Time" device_df with
  | Some time =>
      if (1 <? nrows device_df)%nat then
        let diffs := dropna (series_diff time) in
        match diffs with
        | [] => Ok 0
        | _ =>
            if PrimFloat.ltb 0 (median diffs)
            then round (PrimFloat.div 1 (median diffs))
            else Ok 0
        end
      else Ok 0
  | None => Ok 0
  end.

(** The row of [metadata.csv]. *)
Record meta_row : Type := {
  recording_id : string;
  file_name : string;
  device_id : string;
  device_name : json;
  type_ : string;
  sampling_rate : Z
}.

(** What a written file holds: a text, a table ([to_csv] of a DataFrame, kept
    as the table) or the one-row metadata index. *)
Inductive content : Type :=
| Text (s : string)
| Table (df : DataFrame)
| MetaIndex (row : meta_row).

(** The files of a directory tree, by path. *)
Definition tree : Type := dict content.

(** [os.path.join(a, b)] *)
Definition path_join (a b : string) : string :=
  if startswith "/" b then b
  else if String.eqb a "" || endswith "/" a then a ++ b
  else a ++ "/" ++ b.

Definition nl : string := String (ascii_of_nat 10) EmptyString.
Definition dquote : string := String (ascii_of_nat 34) EmptyString.

Definition readme_text (device_csv_name : string) : string :=
  "Hi! I'm a small file meant to describe the contents of your folder. "
  ++ nl ++ nl
  ++ "You: Quantified saves the data recorded from each of your devices as separate "
  ++ dquote ++ "csv" ++ dquote
  ++ " files. There is an additional file with the metadata for each device."
  ++ nl ++ nl
  ++ "The data gathered from the web browser can have unreliable time synchrony or sampling rates, so be aware of its usage for research purposes. "
  ++ nl ++ nl
  ++ "If you have questions or suggestions, please visit the repository at https://github.com/esromerog/You-Quantified."
  ++ nl ++ nl
  ++ "This folder contains the following files: " ++ device_csv_name
  ++ ", metadata.csv".

(** [write_yq_folder]: the tree after the three files are written. The
    tree has no directories: a table path whose directory does not exist
    (a device identifier with "/" inside) makes [to_csv] raise OSError in
    the code and is written here. *)
Definition write_yq_folder (out : tree) (out_dir : string)
    (device_df : DataFrame) (device_meta : dict json) : res tree :=
  let dev_id :=
    match dict_get "__device_id__" device_meta with
    | Some v => v
    | None =>
        match dict_get "device_id" device_meta with
        | Some v => v
        | None => JStr "emotibit_device"
        end
    end in
  let dev_name :=
    match dict_get "__device_name__" device_meta with
    | Some v => v
    | None =>
        match dict_get "name" device_meta with
        | Some v => v
        | None => JStr "EmotiBit"
        end
    end in
  match dev_id with
  | JStr id =>
      let fn_stub := replace " " "_" (lower id) in
      let device_csv_name := fn_stub ++ "_device.csv" in
      let out1 :=
        dict_set (path_join out_dir "README.txt")
                 (Text (readme_text device_csv_name)) out in
      let out2 :=
        dict_set (path_join out_dir device_csv_name) (Table device_df) out1 in
      bind (sampling_rate_guess device_df) (fun guess =>
      Ok (dict_set (path_join out_dir "metadata.csv")
            (MetaIndex {| recording_id := id ++ " : device";
                          file_name := device_csv_name;
                          device_id := id;
                          device_name := dev_name;
                          type_ := "physio";
                          sampling_rate := guess |}) out2))
  | _ => Raise AttributeError
  end.

(** *** 4. Robust matcher *)

Record session : Type := {
  sess_json : string;
  sess_csv : string;
  sess_name : string
}.

(** [os.path.basename(p)] *)
Definition basename (p : string) : string := last (split "/" p) "".

(** [s.rfind(c)], [None] for -1. *)
Fixpoint rfind_char (c : ascii) (s : string) : option nat :=
  match s with
  | EmptyString => None
  | String a s' =>
      match rfind_char c s' with
      | Some i => Some (S i)
      | None => if Ascii.eqb a c then Some O else None
      end
  end.

Fixpoint all_dots (s : string) : bool :=
  match s with
  | EmptyString => true
  | String c s' => Ascii.eqb c "." && all_dots s'
  end.

(** [os.path.splitext(p)[0]]: [p] up to its last dot, unless only dots stand
    between the last separator and that dot. *)
Definition splitext_root (p : string) : string :=
  match rfind_char "." p with
  | None => p
  | Some d =>
      let start :=
        match rfind_char "/" p with Some i => S i | None => O end in
      if (start <=? d)%nat && negb (all_dots (substring start (d - start) p))
      then prefix_to d p
      else p
  end.

(** The two lists the walk fills: [all_jsons] and [all_csvs]. *)
Definition classify_files (root : string) (fnames : list string)
    : list string * list string :=
  fold_right
    (fun f acc =>
       if startswith "._" f then acc
       else
         let fp := path_join root f in
         if endswith ".json" (lower f) && contains "_info" (lower f)
         then (fp :: fst acc, snd acc)
         else if endswith ".csv" (lower f) then (fst acc, fp :: snd acc)
         else acc)
    ([], []) fnames.

(** [os.walk(root_dir)] yields a directory and its file names at each step. *)
Fixpoint collect (walk : list (string * list string))
    : list string * list string :=
  match walk with
  | [] => ([], [])
  | (root, fnames) :: rest =>
      let acc := collect rest in
      if contains "__MACOSX" root then acc
      else
        let here := classify_files root fnames in
        ((fst here ++ fst acc)%list, (snd here ++ snd acc)%list)
  end.

(** The sort key of the candidates: [len(os.path.basename(p))]. *)
Definition name_len (p : string) : nat := String.length (basename p).

Fixpoint insert_by_len (p : string) (l : list string) : list string :=
  match l with
  | [] => [p]
  | q :: l' =>
      if (name_len p <=? name_len q)%nat then p :: l
      else q :: insert_by_len p l'
  end.

(** [candidates.sort(key=...)]: a stable sort. *)
Definition sort_by_len (l : list string) : list string :=
  fold_right insert_by_len [] l.

(** [base_key] of a metadata path, [None] where the loop continues. *)
Definition base_key (json_path : string) : option string :=
  let stem := splitext_root (basename json_path) in
  match find "_info" (lower stem) with
  | None => None
  | Some idx => Some (prefix_to idx stem)
  end.

(** The measurement files whose stem starts with the key. *)
Definition candidates (key : string) (all_csvs : list string) : list string :=
  filter (fun csv_path => startswith key (splitext_root (basename csv_path)))
         all_csvs.

(** The body of [for json_path in all_jsons]. *)
Definition match_json (all_csvs : list string) (json_path : string)
    : option session :=
  match base_key json_path with
  | None => None
  | Some key =>
      match sort_by_len (candidates key all_csvs) with
      | [] => None
      | csv_path :: _ =>
          Some {| sess_json := json_path; sess_csv := csv_path;
                  sess_name := key |}
      end
  end.

Definition sessions_of (all_jsons all_csvs : list string) : list session :=
  flat_map (fun j => match match_json all_csvs j with
                     | Some s => [s]
                     | None => []
                     end) all_jsons.

Definition find_emotibit_sessions (walk : list (string * list string))
    : list session :=
  let (all_jsons, all_csvs) := collect walk in
  sessions_of all_jsons all_csvs.

(** *** 5. ZIP helper and main logic *)

(** [zip_directory]: every file of the output tree under its relative path.
    The tree of the model is keyed by the paths relative to [YQ_out], as the
    writer joined them: a path that leaves [YQ_out] (an absolute file name,
    ".." components) stays a key of the tree here, while the archive of the
    code holds only what lies under [YQ_out]. *)
Definition zip_directory (out : tree) : tree := out.

(** What the handler shows: the "no pair" message, the download with the
    archive and the number of sessions, or the error. *)
Inductive outcome : Type :=
| NoSessions
| Converted (archive : tree) (n : nat)
| Failed (e : exn).

(** The body of [for sess in sessions]. *)
Definition convert_session (fs : files) (sess : session) (out : tree)
    : res tree :=
  bind (load_emotibit_json fs (sess_json sess)) (fun loaded =>
  let device_meta := fst loaded in
  let channels := snd loaded in
  let created_at :=
    match dict_get "created_at" device_meta with
    | Some v => v
    | None => JNull
    end in
  bind (parse_emotibit_csv fs (sess_csv sess) created_at channels)
       (fun df_device =>
  write_yq_folder out (sess_name sess) df_device device_meta)).

Fixpoint convert_sessions (fs : files) (sessions : list session) (out : tree)
    : res tree :=
  match sessions with
  | [] => Ok out
  | sess :: rest =>
      bind (convert_session fs sess out) (convert_sessions fs rest)
  end.

(** The handler after the archive is extracted, inside its [try]. *)
Definition convert (walk : list (string * list string)) (fs : files)
    : outcome :=
  match find_emotibit_sessions walk with
  | [] => NoSessions
  | sessions =>
      match convert_sessions fs sessions [] with
      | Ok out => Converted (zip_directory out) (List.length sessions)
      | Raise e => Failed e
      end
  end.

End Converter.

(** ** Notions the statements use *)

(** The fields of a measurement line, as [parse_line] splits it. *)
Definition fields (line : string) : list string :=
  map strip (split "," (strip line)).

(** The declared sample count of a line: field [2], 1 when it is not an
    integer. *)
Definition declared_count (parts : list string) : Z :=
  match int_of_str (nth 2 parts "") with
  | Ok n => n
  | Raise _ => 1
  end.

(** [base_ts_ms] of a line whose first field is [system_ms]. *)
Definition line_base (H : host) (base_dt : option (datetime H))
    (system_ms : Z) : res Z :=
  match base_dt with
  | Some dt => epoch_ms H dt system_ms
  | None => Ok system_ms
  end.

(** The rational number a finite binary64 stands for. *)
Definition float_value (x : float) : option Q :=
  match Prim2SF x with
  | S754_zero _ => Some 0%Q
  | S754_finite s m e => Some (inject_Z (cond_Zopp s (Zpos m)) * Qpower 2 e)%Q
  | _ => None
  end.

(** Truncation toward zero. *)
Definition Qtrunc (q : Q) : Z :=
  if Qle_bool 0 q then Qfloor q else Qceiling q.

(** The sample rate is a number above zero. *)
Definition rate_positive (sr : json) : Prop :=
  exists d, as_float sr = Ok d /\ PrimFloat.ltb 0 d = true.

(** A float that is not below zero: a zero, a positive number or infinity,
    or NaN. *)
Definition sf_nonneg (f : spec_float) : Prop :=
  match f with
  | S754_finite s _ _ => s = false
  | S754_infinity s => s = false
  | _ => True
  end.

(** The group of a (timestamp, tag) pair has a mean that is a number. *)
Definition numeric_group (rs : list record) (ts : Z) (tg : string) : Prop :=
  not_nan (pd_mean (group_values rs ts tg)) = true.

(** The tags that head the columns of the pivot. *)
Definition pivot_tags (rs : list record) : list string :=
  map fst (snd (pivot_table rs)).

(** The header a column gets in [rename]. *)
Definition header_of (channels : dict channel) (h : string) : string :=
  match dict_get h channels with
  | Some meta => label meta
  | None => h
  end.

(** The stream records of a metadata document: [data[1:]]. *)
Definition streams (data : json) : list json :=
  match data with
  | JArr (_ :: rest) => rest
  | _ => []
  end.

(** The name of a stream record: [info.get("name", info.get("type",
    "Channel"))]. *)
Definition stream_name (entry : json) : option json :=
  match py_get entry "info" (JObj []) with
  | Ok info =>
      match py_get info "type" (JStr "Channel") with
      | Ok ty =>
          match py_get info "name" ty with
          | Ok name => Some name
          | Raise _ => None
          end
      | Raise _ => None
      end
  | Raise _ => None
  end.

(** The tags a stream record lists: the items of its "typeTags". *)
Definition stream_tags (entry : json) : list json :=
  match py_get entry "info" (JObj []) with
  | Ok info =>
      match py_get info "typeTags" (JArr []) with
      | Ok tags =>
          match py_iter tags with
          | Ok ts => ts
          | Raise _ => []
          end
      | Raise _ => []
      end
  | Raise _ => []
  end.

Definition is_tag (tg : string) (t : json) : bool :=
  match t with
  | JStr s => String.eqb s tg
  | _ => false
  end.

(** The name of the last stream record that lists the tag. *)
Fixpoint registrant (entries : list json) (tg : string) : option json :=
  match entries with
  | [] => None
  | e :: rest =>
      match registrant rest tg with
      | Some name => Some name
      | None =>
          if existsb (is_tag tg) (stream_tags e) then stream_name e else None
      end
  end.

(** The name joined with the tag, all spaces removed. *)
Definition name_tag (H : host) (name : json) (tg : string) : string :=
  replace " " "" (fmt H name ++ "_" ++ tg).

(** The differences of consecutive values of a column, in the words of the
    specification: each value minus the one before it. *)
Definition consecutive_differences (c : column) : list float :=
  match c with
  | FloatCol l =>
      map (fun p => PrimFloat.sub (snd p) (fst p)) (combine l (tl l))
  | IntCol l =>
      map (fun p => nearest_float (snd p - fst p)) (combine l (tl l))
  end.

(** The arithmetic mean in the words of the specification: the sum of the
    values over their number. *)
Definition arithmetic_mean (vs : list float) : float :=
  PrimFloat.div (fsum vs) (nearest_float (Z.of_nat (List.length vs))).

(** A session fails, or succeeds, whatever was written before it. *)
Definition session_fails (H : host) (fs : files) (s : session) (e : exn)
    : Prop :=
  forall out, convert_session H fs s out = Raise e.

Definition session_succeeds (H : host) (fs : files) (s : session) : Prop :=
  forall out, exists out', convert_session H fs s out = Ok out'.

(** ** The scenarios of the specification *)

(** A host for the examples: no recording start is parsed in them, and every
    name is a str. *)
Definition example_host : host :=
  {| py_str := fun _ => "";
     datetime := unit;
     strptime := fun _ => Raise ValueError;
     epoch_ms := fun _ ms => Ok ms |}.

(** *** Channel "AA" at 25 Hz *)

(** The metadata document: a device record, then the stream "Accelerometer"
    with the tag "AA" at 25 Hz. *)
Definition accel_doc : json :=
  JArr [ JObj [("info", JObj [("name", JStr "EmotiBit")])];
         JObj [("info", JObj [("name", JStr "Accelerometer");
                              ("typeTags", JArr [JStr "AA"]);
                              ("nominal_srate", JInt 25)])] ].

Definition accel_meta : dict json :=
  [ ("name", JStr "EmotiBit");
    ("__device_name__", JStr "EmotiBit");
    ("__device_id__", JStr "EmotiBit") ].

Definition accel_channels : dict channel :=
  [("AA", {| label := "Accelerometer_AA";
             nominal_srate := JInt 25;
             units := JNull;
             raw_info := JObj [("name", JStr "Accelerometer");
                               ("typeTags", JArr [JStr "AA"]);
                               ("nominal_srate", JInt 25)] |})].

Definition accel_line : string := "1000,x,2,AA,x,x,0.1,0.2".

Definition accel_records : list record :=
  [ {| timestamp := 1000; tag := "AA"; value := 0.1 |};
    {| timestamp := 1040; tag := "AA"; value := 0.2 |} ].

(** An archive whose measurement file is the line of the scenario. *)
Definition accel_files : files :=
  {| json_load := fun _ => Ok accel_doc;
     read_lines := fun _ => Ok [accel_line] |}.

(** The wide table of the scenario. *)
Definition accel_table : DataFrame :=
  [ ("timestamp", IntCol [1000; 1040]);
    ("Time", FloatCol [0; 0.04]%float);
    ("Accelerometer_AA", FloatCol [0.1; 0.2]%float) ].

(** The folder [write_yq_folder] writes for that table. *)
Definition accel_folder : tree :=
  Eval vm_compute in
    match write_yq_folder [] "dev001" accel_table accel_meta with
    | Ok t => t
    | Raise _ => []
    end.

(** The archive of the scenario as the matcher walks it. *)
Definition accel_walk : list (string * list string) :=
  [("rec", ["dev001_info.json"; "dev001.csv"])].

(** *** Declared counts *)

(** A declared count far above the two values of the line. *)
Definition overlong_line : string := "1000,x,99,AA,x,x,0.1,0.2".

(** Five values under a declared count of 2. *)
Definition five_values_line : string := "1000,x,2,AA,x,x,0.1,0.2,0.3,0.4,0.5".

(** Two values under a declared count that is not an integer. *)
Definition unparseable_count_line : string := "1000,x,two,AA,x,x,0.1,0.2".

(** Three values under a declared count of -1. *)
Definition negative_count_line : string := "1000,x,-1,AA,x,x,0.1,0.2,0.3".

(** *** Matching and batches *)

(** One metadata file and two measurement files whose names start with its
    key. *)
Definition dev001_walk : list (string * list string) :=
  [("rec", ["dev001_info.json"; "dev001_1.csv"; "dev001.csv"])].

Definition dev001_session : session :=
  {| sess_json := "rec/dev001_info.json";
     sess_csv := "rec/dev001.csv";
     sess_name := "dev001" |}.

(** Two sessions, [a] and [b]; the metadata document of [a] is an empty
    array, the files of [b] are those of the scenario above. *)
Definition two_sessions_walk : list (string * list string) :=
  [("rec", ["a_info.json"; "a.csv"; "b_info.json"; "b.csv"])].

Definition two_sessions_files : files :=
  {| json_load := fun p =>
       if String.eqb p "rec/a_info.json" then Ok (JArr []) else Ok accel_doc;
     read_lines := fun _ => Ok [accel_line] |}.

Definition session_a : session :=
  {| sess_json := "rec/a_info.json"; sess_csv := "rec/a.csv";
     sess_name := "a" |}.

Definition session_b : session :=
  {| sess_json := "rec/b_info.json"; sess_csv := "rec/b.csv";
     sess_name := "b" |}.

(** The archive of [session_b] alone. *)
Definition only_b_walk : list (string * list string) :=
  [("rec", ["b_info.json"; "b.csv"])].

(** *** Two streams *)

(** A metadata document with two streams, "Accelerometer" with the tag "AA"
    and "Heart Rate" with the tag "HR". *)
Definition two_stream_doc : json :=
  JArr [ JObj [("info", JObj [("name", JStr "EmotiBit")])];
         JObj [("info", JObj [("name", JStr "Accelerometer");
                              ("typeTags", JArr [JStr "AA"]);
                              ("nominal_srate", JInt 25)])];
         JObj [("info", JObj [("name", JStr "Heart Rate");
                              ("typeTags", JArr [JStr "HR"]);
                              ("nominal_srate", JInt 1)])] ].

Definition two_stream_channels : dict channel :=
  Eval vm_compute in
    match load_document example_host two_stream_doc with
    | Ok loaded => snd loaded
    | Raise _ => []
    end.

(** A measurement file in which both tags carry a number at one instant, the
    tag "AA" twice. *)
Definition two_stream_lines : list string :=
  ["1000,x,1,AA,x,x,0.1"; "1000,x,1,AA,x,x,0.3"; "1000,x,1,HR,x,x,61"].

Definition two_stream_files : files :=
  {| json_load := fun _ => Ok two_stream_doc;
     read_lines := fun _ => Ok two_stream_lines |}.

Definition two_stream_records : list record :=
  [ {| timestamp := 1000; tag := "AA"; value := 0.1 |};
    {| timestamp := 1000; tag := "AA"; value := 0.3 |};
    {| timestamp := 1000; tag := "HR"; value := 61 |} ].

Definition two_stream_table : DataFrame :=
  [ ("timestamp", IntCol [1000]);
    ("Time", FloatCol [0%float]);
    ("Accelerometer_AA", FloatCol [0.2%float]);
    ("HeartRate_HR", FloatCol [61%float]) ].

(** A measurement file in which the only sample of the tag "HR" reads
    "nan". *)
Definition nan_lines : list string :=
  ["1000,x,1,AA,x,x,0.1"; "1000,x,1,HR,x,x,nan"].

Definition nan_files : files :=
  {| json_load := fun _ => Ok two_stream_doc;
     read_lines := fun _ => Ok nan_lines |}.

Definition nan_records : list record :=
  [ {| timestamp := 1000; tag := "AA"; value := 0.1 |};
    {| timestamp := 1000; tag := "HR"; value := nan |} ].

(** *** A timestamp whose samples all read "nan"

    Two samples of "AA" at 1000 ms, one of them "nan", and one at 1040 ms
    that reads "nan". *)
Definition nan_mean_lines : list string :=
  ["1000,x,1,AA,x,x,0.1"; "1000,x,2,AA,x,x,nan,nan"].

Definition nan_mean_files : files :=
  {| json_load := fun _ => Ok accel_doc;
     read_lines := fun _ => Ok nan_mean_lines |}.

Definition nan_mean_records : list record :=
  [ {| timestamp := 1000; tag := "AA"; value := 0.1 |};
    {| timestamp := 1000; tag := "AA"; value := nan |};
    {| timestamp := 1040; tag := "AA"; value := nan |} ].

Definition nan_mean_table : DataFrame :=
  [ ("timestamp", IntCol [1000]);
    ("Time", FloatCol [0%float]);
    ("Accelerometer_AA", FloatCol [0.1%float]) ].

(** ** Notions of the further properties *)

(** [raw.get(k)] on the keys of a dict: [None] when the key is missing. *)
Definition get_or_null (kv : dict json) (k : string) : json :=
  match dict_get k kv with
  | Some v => v
  | None => JNull
  end.

Definition is_object (v : json) : Prop := exists kv, v = JObj kv.

(** The last stream record that lists the tag. *)
Fixpoint last_listing (entries : list json) (tg : string) : option json :=
  match entries with
  | [] => None
  | e :: rest =>
      match last_listing rest tg with
      | Some e' => Some e'
      | None => if existsb (is_tag tg) (stream_tags e) then Some e else None
      end
  end.

(** The descriptor a stream record gives one of its tags. *)
Definition descriptor (H : host) (entry : json) (tg : string)
    : option channel :=
  match py_get entry "info" (JObj []) with
  | Ok info =>
      match stream_name entry,
            py_get info "nominal_srate" JNull,
            py_get info "units" JNull with
      | Some name, Ok sr, Ok u =>
          Some {| label := name_tag H name tg; nominal_srate := sr;
                  units := u; raw_info := info |}
      | _, _, _ => None
      end
  | Raise _ => None
  end.

(** A device record without a name, whose identifier is a number. *)
Definition numbered_doc : json :=
  JArr [ JObj [("info", JObj [("source_id", JStr "Emoti Bit 7");
                              ("firmware", JInt 3)])];
         JObj [("info", JObj [("name", JStr "Accelerometer");
                              ("typeTags", JArr [JStr "AA"]);
                              ("nominal_srate", JInt 25)])];
         JObj [("info", JObj [("type", JStr "Acc");
                              ("typeTags", JArr [JStr "AA"; JStr "AX"]);
                              ("nominal_srate", JFloat 50);
                              ("units", JStr "g")])] ].

Definition numbered_meta : dict json :=
  Eval vm_compute in
    match load_document example_host numbered_doc with
    | Ok loaded => fst loaded
    | Raise _ => []
    end.

Definition numbered_channels : dict channel :=
  Eval vm_compute in
    match load_document example_host numbered_doc with
    | Ok loaded => snd loaded
    | Raise _ => []
    end.


(** A line with six fields. *)
Definition six_field_line : string := "1000,x,2,AA,x,x".

(** The table of a file without Long Records. *)
Definition empty_table : DataFrame := [("timestamp", IntCol [])].

(** An archive whose measurement file holds no registered tag. *)
Definition unknown_tag_files : files :=
  {| json_load := fun _ => Ok accel_doc;
     read_lines := fun _ => Ok ["1000,x,1,ZZ,x,x,0.5"; ""; six_field_line] |}.

(** A channel registered under the name of the column "Time". *)
Definition time_tag_channels : dict channel :=
  [("Time", {| label := "Clock_Time"; nominal_srate := JInt 1;
               units := JNull; raw_info := JObj [] |})].

Definition time_tag_records : list record :=
  [ {| timestamp := 1000; tag := "Time"; value := 5 |} ].

(** Long Records whose values are all NaN. *)
Definition all_nan_records : list record :=
  [ {| timestamp := 1000; tag := "AA"; value := nan |};
    {| timestamp := 1040; tag := "AA"; value := nan |} ].

(** The name of the table file: [f"{fn_stub}_device.csv"]. *)
Definition device_csv_name (id : string) : string :=
  replace " " "_" (lower id) ++ "_device.csv".

(** The last five characters of a text, last first. *)
Definition last5 (s : string) : list ascii :=
  firstn 5 (rev (list_ascii_of_string s)).

(** A device descriptor whose identifier has capitals and a space. *)
Definition spaced_meta : dict json :=
  [ ("__device_name__", JStr "Emoti Bit");
    ("__device_id__", JStr "Emoti Bit 7") ].

(** A device descriptor whose identifier is an absolute path. *)
Definition rooted_meta : dict json :=
  [ ("__device_id__", JStr "/tmp/dev") ].

(** The walk lists the file [f] in the directory [root], and neither is
    housekeeping of the platform. *)
Definition listed (walk : list (string * list string)) (root f : string)
    : Prop :=
  (exists fnames, In (root, fnames) walk /\ In f fnames) /\
  contains "__MACOSX" root = false /\
  startswith "._" f = false.

(** An archive with housekeeping entries beside the files of the scenario,
    and two measurement files whose names are equally short. *)
Definition cluttered_walk : list (string * list string) :=
  [ ("rec", ["._dev001.csv"; "dev001_info.json"; "dev001b.csv";
             "dev001a.csv"; "notes.txt"]);
    ("rec/__MACOSX", ["dev001.csv"; "dev001_info.json"]) ].

(** An archive with a metadata file and no measurement file of its key. *)
Definition unmatched_walk : list (string * list string) :=
  [("rec", ["dev001_info.json"; "other.csv"])].

(** An archive in which no file name holds "_info". *)
Definition plain_walk : list (string * list string) :=
  [("rec", ["dev001.json"; "dev001.csv"])].


(** * Properties *)

(** ** The result monad and dictionaries *)

Lemma bind_ok {A B : Type} (m : res A) (k : A -> res B) (b : B) :
  bind m k = Ok b -> exists a, m = Ok a /\ k a = Ok b.
Proof.
  destruct m as [a|e]; simpl; intros Hb; [eauto | discriminate].
Qed.

Ltac inv_bind Hb :=
  let a := fresh "a" in
  let Ha := fresh "Ha" in
  apply bind_ok in Hb; destruct Hb as (a & Ha & Hb).

Lemma dict_get_set {V : Type} (k k' : string) (v : V) : forall d : dict V,
  dict_get k (dict_set k' v d)
  = if String.eqb k k' then Some v else dict_get k d.
Proof.
  induction d as [|[k0 v0] d IH]; simpl.
  - reflexivity.
  - destruct (String.eqb_spec k' k0) as [->|Hne]; simpl.
    + destruct (String.eqb k k0); reflexivity.
    + rewrite IH. destruct (String.eqb_spec k k0) as [->|Hne'].
      * destruct (String.eqb_spec k0 k'); [congruence | reflexivity].
      * reflexivity.
Qed.

Lemma dict_get_set_same {V : Type} (k : string) (v : V) (d : dict V) :
  dict_get k (dict_set k v d) = Some v.
Proof. rewrite dict_get_set, String.eqb_refl. reflexivity. Qed.

(** ** Binary64 numbers: truncation and sign *)

Lemma Qpower2_pos (e : Z) : (0 < Qpower 2 e)%Q.
Proof. apply Qpower_0_lt. reflexivity. Qed.

Lemma Qfloor_scaled (m : positive) (e : Z) :
  Qfloor (inject_Z (Zpos m) * Qpower 2 e) = Z.shiftl (Zpos m) e.
Proof.
  destruct e as [|p|p].
  - transitivity (Qfloor (inject_Z (Zpos m))).
    + apply Qfloor_comp. simpl. ring.
    + apply Qfloor_Z.
  - rewrite Z.shiftl_mul_pow2 by lia.
    transitivity (Qfloor (inject_Z (Zpos m * 2 ^ Zpos p))).
    + apply Qfloor_comp. rewrite inject_Z_mult.
      rewrite (Zpower_Qpower 2 (Zpos p)) by lia. reflexivity.
    + apply Qfloor_Z.
  - change (Zneg p) with (- Zpos p). rewrite Z.shiftl_opp_r.
    rewrite Z.shiftr_div_pow2 by lia.
    assert (Hd : 0 < 2 ^ Zpos p) by (apply Z.pow_pos_nonneg; lia).
    destruct (2 ^ Zpos p) as [|d|d] eqn:Hp; try lia.
    transitivity (Qfloor (Zpos m # d)).
    + apply Qfloor_comp. rewrite Qpower_opp.
      assert (Hq : (Qpower 2 (Zpos p) == inject_Z (Zpos d))%Q).
      { rewrite <- Hp. symmetry. apply (Zpower_Qpower 2 (Zpos p)). lia. }
      rewrite Hq. unfold Qeq, Qmult, Qinv, inject_Z. simpl. lia.
    + reflexivity.
Qed.

Lemma Qtrunc_finite (s : bool) (m : positive) (e : Z) :
  Qtrunc (inject_Z (cond_Zopp s (Zpos m)) * Qpower 2 e) = trunc_finite s m e.
Proof.
  unfold Qtrunc, trunc_finite.
  pose proof (Qpower2_pos e) as Hp.
  destruct s; simpl cond_Zopp.
  - assert (Hneg : (inject_Z (Zneg m) * Qpower 2 e < 0)%Q).
    { setoid_replace (inject_Z (Z.neg m) * 2 ^ e)%Q with (- (inject_Z (Zpos m) * 2 ^ e))%Q.
      - apply Qlt_minus_iff. rewrite Qopp_involutive. 
        setoid_replace (0 + inject_Z (Z.pos m) * 2 ^ e)%Q with (inject_Z (Z.pos m) * 2 ^ e)%Q by ring.
        apply Qmult_lt_0_compat; [reflexivity | assumption].
      - change (Zneg m) with (- Zpos m). rewrite inject_Z_opp. ring. }
    destruct (Qle_bool 0 (inject_Z (Z.neg m) * 2 ^ e)) eqn:Hle.
    + apply Qle_bool_iff in Hle. exfalso. apply (Qlt_not_le _ _ Hneg Hle).
    + unfold Qceiling. f_equal. rewrite <- Qfloor_scaled.
      apply Qfloor_comp. change (Zneg m) with (- Zpos m). rewrite inject_Z_opp. ring.
  - assert (Hle : Qle_bool 0 (inject_Z (Zpos m) * 2 ^ e) = true).
    { apply Qle_bool_iff. apply Qlt_le_weak. apply Qmult_lt_0_compat; [reflexivity | assumption]. }
    rewrite Hle. apply Qfloor_scaled.
Qed.

Lemma int_of_float_trunc (x : float) (z : Z) :
  int_of_float x = Ok z ->
  exists q, float_value x = Some q /\ z = Qtrunc q.
Proof.
  unfold int_of_float, float_value.
  destruct (Prim2SF x) as [s|s| |s m e]; try discriminate; intros [= <-].
  - exists 0%Q. split; reflexivity.
  - eexists. split; [reflexivity|]. symmetry. apply Qtrunc_finite.
Qed.

(** The integer part of a number that is not below zero lies within one
    below it. *)
Lemma Qtrunc_nonneg_bounds (q : Q) :
  (0 <= q)%Q -> (inject_Z (Qtrunc q) <= q < inject_Z (Qtrunc q) + 1)%Q.
Proof.
  intros Hq. unfold Qtrunc.
  apply Qle_bool_iff in Hq. rewrite Hq. split.
  - apply Qfloor_le.
  - pose proof (Qlt_floor q) as Hlt. rewrite inject_Z_plus in Hlt. exact Hlt.
Qed.

Lemma float_value_nonneg (x : float) (q : Q) :
  sf_nonneg (Prim2SF x) -> float_value x = Some q -> (0 <= q)%Q.
Proof.
  unfold float_value.
  destruct (Prim2SF x) as [s|s| |s m e]; simpl; intros Hs Hq;
    try discriminate; injection Hq as <-.
  - apply Qle_refl.
  - subst s. simpl. apply Qlt_le_weak.
    apply Qmult_lt_0_compat; [reflexivity | apply Qpower2_pos].
Qed.

Lemma binary_round_aux_nonneg mx ex lx :
  sf_nonneg (binary_round_aux prec emax false mx ex lx).
Proof.
  unfold binary_round_aux.
  destruct (shr_fexp prec emax mx ex lx) as [mrs' e'].
  destruct (shr_fexp prec emax _ e' loc_Exact) as [mrs'' e''].
  destruct (shr_m mrs''); simpl; auto.
  destruct (e'' <=? 971); simpl; auto.
Qed.

Lemma binary_round_nonneg m e : sf_nonneg (binary_round prec emax false m e).
Proof.
  unfold binary_round. destruct (shl_align _ _ _) as [mz ez].
  apply binary_round_aux_nonneg.
Qed.

Lemma binary_normalize_nonneg n e :
  0 <= n -> sf_nonneg (binary_normalize prec emax n e false).
Proof.
  destruct n; simpl; intros Hn; auto; [apply binary_round_nonneg | lia].
Qed.

Lemma SFmul_nonneg a b :
  sf_nonneg a -> sf_nonneg b -> sf_nonneg (SF64mul a b).
Proof.
  unfold SF64mul.
  destruct a as [sa|sa| |sa ma ea], b as [sb|sb| |sb mb eb]; simpl;
    intros Ha Hb; subst; auto.
  apply binary_round_aux_nonneg.
Qed.

Lemma SFdiv_nonneg a b :
  sf_nonneg a -> SFltb (S754_zero false) b = true -> sf_nonneg (SF64div a b).
Proof.
  unfold SF64div, SFltb.
  destruct a as [sa|sa| |sa ma ea], b as [sb|sb| |sb mb eb]; simpl;
    intros Ha Hb; subst; auto; try discriminate;
    try (destruct sb; [discriminate | auto]).
  destruct (SFdiv_core_binary prec emax (Zpos ma) ea (Zpos mb) eb) as [[mz ez] lz].
  apply binary_round_aux_nonneg.
Qed.

Lemma Prim2SF_SF2Prim_nonneg f :
  sf_nonneg f -> sf_nonneg (Prim2SF (SF2Prim f)).
Proof.
  destruct f as [s|s| |s m e]; simpl; intros Hf; subst.
  - destruct s; vm_compute; auto.
  - vm_compute; auto.
  - vm_compute; auto.
  - unfold Z.ldexp. rewrite ldshiftexp_spec.
    rewrite of_uint63_spec.
    pose proof (Uint63.to_Z_bounded (Uint63Axioms.of_Z (Zpos m))) as Hb.
    pose proof (binary_normalize_nonneg (Uint63Axioms.to_Z (Uint63Axioms.of_Z (Z.pos m))) 0 (proj1 Hb)) as Hn.
    destruct (binary_normalize prec emax _ 0 false) as [s'|s'| |s' m' e']; simpl in *; auto.
    subst. apply binary_round_nonneg.
Qed.

Lemma nearest_float_nonneg n :
  0 <= n -> sf_nonneg (Prim2SF (nearest_float n)).
Proof.
  intros Hn. unfold nearest_float. apply Prim2SF_SF2Prim_nonneg.
  now apply binary_normalize_nonneg.
Qed.

Lemma ltb_zero_positive (d : float) :
  PrimFloat.ltb 0 d = true -> SFltb (S754_zero false) (Prim2SF d) = true.
Proof.
  intros Hd. rewrite ltb_spec in Hd. exact Hd.
Qed.

(** With a positive rate the offset [(idx * 1.0 / sr) * 1000.0] is not below
    zero. *)
Lemma offset_ms_nonneg (idx : nat) (sr : json) (x : float) :
  rate_positive sr -> offset_ms idx sr = Ok x -> sf_nonneg (Prim2SF x).
Proof.
  intros (d & Hd & Hpos) Hx. unfold offset_ms in Hx.
  inv_bind Hx. inv_bind Hx. injection Hx as <-.
  unfold float_of_int in Ha.
  destruct (is_infinity (nearest_float (Z.of_nat idx))); [discriminate|].
  injection Ha as <-.
  unfold float_div in Ha0. rewrite Hd in Ha0. simpl in Ha0.
  destruct (PrimFloat.eqb d 0); [discriminate|]. injection Ha0 as <-.
  rewrite mul_spec. apply SFmul_nonneg; [|vm_compute; reflexivity].
  rewrite div_spec. apply SFdiv_nonneg; [|now apply ltb_zero_positive].
  rewrite mul_spec. apply SFmul_nonneg; [|vm_compute; reflexivity].
  apply nearest_float_nonneg. lia.
Qed.

(** The float is not always the exact quotient: at 25 Hz the sample of index
    201 lies 8040 ms after the base, the float [(201 * 1.0 / 25) * 1000.0]
    is just below 8040, and 8039 is stored. *)
Lemma offset_below_exact : sample_offset 201 (JInt 25) = Ok 8039.
Proof. vm_compute. reflexivity. Qed.

(** At 3 Hz the sample of index 2 lies 666.67 ms after the base: 666 is
    stored, where rounding would give 667. *)
Lemma offset_not_rounded : sample_offset 2 (JInt 3) = Ok 666.
Proof. vm_compute. reflexivity. Qed.

(** ** The metadata parser *)

Lemma load_document_empty (H : host) (data : json) :
  truthy data = false -> load_document H data = Raise ValueError.
Proof.
  intros Hd. unfold load_document. rewrite Hd. reflexivity.
Qed.

Lemma load_document_streams (H : host) (data : json)
    (device_meta : dict json) (channels : dict channel) :
  load_document H data = Ok (device_meta, channels) ->
  register_streams H (streams data) [] = Ok channels.
Proof.
  unfold load_document. destruct (negb (truthy data)); [discriminate|].
  destruct data as [| | | | |[|first rest]|]; try discriminate.
  intros Hd. do 6 inv_bind Hd. inv_bind Hd. injection Hd as _ <-.
  exact Ha5.
Qed.

Lemma register_tags_label (H : host) (name sr units info : json)
    (tg : string) : forall (tags : list json) (init c : dict channel),
  register_tags H name sr units info tags init = Ok c ->
  option_map label (dict_get tg c)
  = if existsb (is_tag tg) tags then Some (name_tag H name tg)
    else option_map label (dict_get tg init).
Proof.
  induction tags as [|t tags IH]; simpl; intros init c Hc.
  - injection Hc as <-. reflexivity.
  - destruct t as [| | | |s| |]; try discriminate;
      try (now apply IH).
    apply IH in Hc. rewrite Hc. cbn [is_tag].
    destruct (existsb (is_tag tg) tags); [now rewrite orb_true_r|].
    rewrite orb_false_r, dict_get_set, (String.eqb_sym s tg).
    destruct (String.eqb_spec tg s) as [->|Hne]; reflexivity.
Qed.

Lemma register_stream_label (H : host) (e : json) (tg : string)
    (init c : dict channel) :
  register_stream H e init = Ok c ->
  option_map label (dict_get tg c)
  = if existsb (is_tag tg) (stream_tags e)
    then option_map (fun name => name_tag H name tg) (stream_name e)
    else option_map label (dict_get tg init).
Proof.
  unfold register_stream, stream_tags, stream_name. intros Hc.
  inv_bind Hc. rewrite Ha.
  inv_bind Hc. rewrite Ha0.
  inv_bind Hc. rewrite Ha1.
  inv_bind Hc. rewrite Ha2.
  inv_bind Hc. inv_bind Hc. inv_bind Hc. rewrite Ha5.
  apply (register_tags_label _ _ _ _ _ tg) in Hc. rewrite Hc.
  destruct (existsb (is_tag tg) a5); reflexivity.
Qed.

Lemma register_stream_name (H : host) (e : json) (init c : dict channel) :
  register_stream H e init = Ok c -> exists name, stream_name e = Some name.
Proof.
  unfold register_stream, stream_name. intros Hc.
  inv_bind Hc. rewrite Ha.
  inv_bind Hc. rewrite Ha0.
  inv_bind Hc. rewrite Ha1. eauto.
Qed.

Lemma register_streams_label (H : host) (tg : string) :
  forall (entries : list json) (init c : dict channel),
  register_streams H entries init = Ok c ->
  option_map label (dict_get tg c)
  = match registrant entries tg with
    | Some name => Some (name_tag H name tg)
    | None => option_map label (dict_get tg init)
    end.
Proof.
  induction entries as [|e rest IH]; simpl; intros init c Hc.
  - injection Hc as <-. reflexivity.
  - inv_bind Hc. apply IH in Hc. rewrite Hc.
    destruct (registrant rest tg) as [name|]; [reflexivity|].
    rewrite (register_stream_label _ _ tg _ _ Ha).
    destruct (existsb (is_tag tg) (stream_tags e)); [|reflexivity].
    destruct (register_stream_name _ _ _ _ Ha) as [name ->]. reflexivity.
Qed.

(** The metadata of the scenario registers exactly that channel. *)
Lemma accel_doc_channels (H : host) :
  exists device_meta, load_document H accel_doc = Ok (device_meta, accel_channels).
Proof. eexists. vm_compute. reflexivity. Qed.

(** ** The reshaper: from lines to Long Records *)

Lemma emit_samples_length base tg sr : forall vals idx rs,
  emit_samples base tg sr idx vals = Ok rs ->
  (List.length rs <= List.length vals)%nat.
Proof.
  induction vals as [|val rest IH]; simpl; intros idx rs Hrs.
  - injection Hrs as <-. simpl. lia.
  - destruct (float_of_str val) as [v|e].
    + inv_bind Hrs. inv_bind Hrs. injection Hrs as <-.
      apply IH in Ha0. simpl. lia.
    + destruct e; try discriminate. apply IH in Hrs. lia.
Qed.

Lemma emit_samples_In base tg sr : forall vals idx rs r,
  emit_samples base tg sr idx vals = Ok rs -> In r rs ->
  exists k val off,
    nth_error vals k = Some val /\
    float_of_str val = Ok (value r) /\
    sample_offset (idx + k) sr = Ok off /\
    timestamp r = base + off /\ tag r = tg.
Proof.
  induction vals as [|val rest IH]; simpl; intros idx rs r Hrs Hin.
  - injection Hrs as <-. destruct Hin.
  - destruct (float_of_str val) as [v|e] eqn:Hv.
    + inv_bind Hrs. inv_bind Hrs. injection Hrs as <-.
      destruct Hin as [<-|Hin].
      * exists O, val, a. simpl. rewrite Nat.add_0_r. auto.
      * destruct (IH _ _ _ Ha0 Hin) as (k & val' & off & Hk & Hf & Ho & Ht & Hg).
        exists (S k), val', off. simpl.
        replace (idx + S k)%nat with (S idx + k)%nat by lia. auto.
    + destruct e; try discriminate.
      destruct (IH _ _ _ Hrs Hin) as (k & val' & off & Hk & Hf & Ho & Ht & Hg).
      exists (S k), val', off. simpl.
      replace (idx + S k)%nat with (S idx + k)%nat by lia. auto.
Qed.

Lemma slice_to_length {A : Type} (n : Z) (l : list A) :
  (List.length (slice_to n l) <= List.length l)%nat.
Proof.
  unfold slice_to. destruct (n <? 0); rewrite length_firstn; lia.
Qed.

Lemma nth_error_firstn_some {A : Type} (l : list A) : forall n k v,
  nth_error (firstn n l) k = Some v -> nth_error l k = Some v /\ (k < n)%nat.
Proof.
  induction l as [|x l IH]; intros [|n] [|k] v; simpl; try discriminate.
  - intros Hv. split; [assumption | lia].
  - intros Hv. apply IH in Hv. split; [tauto | lia].
Qed.

Lemma slice_to_nth_error {A : Type} (n : Z) (l : list A) k v :
  nth_error (slice_to n l) k = Some v ->
  nth_error l k = Some v /\ (0 <= n -> Z.of_nat k < n).
Proof.
  unfold slice_to. destruct (n <? 0) eqn:Hn; intros Hv;
    apply nth_error_firstn_some in Hv; destruct Hv as [Hv Hk].
  - apply Z.ltb_lt in Hn. split; [assumption | lia].
  - apply Z.ltb_ge in Hn. split; [assumption | lia].
Qed.

Lemma nth_error_nth_default {A : Type} (l : list A) (k : nat) (v d : A) :
  nth_error l k = Some v -> nth k l d = v.
Proof.
  revert k. induction l as [|x l IH]; intros [|k]; simpl; try discriminate.
  - now intros [= ->].
  - apply IH.
Qed.

Lemma nth_error_skipn {A : Type} (n : nat) : forall (l : list A) k,
  nth_error (skipn n l) k = nth_error l (n + k).
Proof.
  induction n as [|n IH]; intros [|x l] k; simpl; auto.
  now destruct k.
Qed.

Lemma parse_line_ok (H : host) base_dt channels line rs :
  parse_line H base_dt channels line = Ok rs ->
  rs = [] \/
  exists system_ms ch b,
    (7 <= List.length (fields line))%nat /\
    int_of_str (nth 0 (fields line) "") = Ok system_ms /\
    dict_get (nth 3 (fields line) "") channels = Some ch /\
    line_base H base_dt system_ms = Ok b /\
    emit_samples b (nth 3 (fields line) "") (effective_rate ch) 0
      (slice_to (declared_count (fields line)) (skipn 6 (fields line))) = Ok rs.
Proof.
  unfold parse_line, fields, declared_count, line_base.
  destruct (String.eqb (strip line) "").
  { intros [= <-]. now left. }
  set (parts := map strip (split "," (strip line))).
  destruct (Nat.ltb_spec (List.length parts) 7) as [Hlt|Hge].
  { intros [= <-]. now left. }
  destruct (int_of_str (nth 0 parts "")) as [system_ms|e].
  2:{ intros [= <-]. now left. }
  destruct (dict_get (nth 3 parts "") channels) as [ch|].
  2:{ intros [= <-]. now left. }
  intros Hrs. inv_bind Hrs. right. exists system_ms, ch, a. auto.
Qed.

(** What a record of a line is made of. *)
Lemma parse_line_In (H : host) base_dt channels line rs r :
  parse_line H base_dt channels line = Ok rs -> In r rs ->
  exists system_ms ch b i off,
    int_of_str (nth 0 (fields line) "") = Ok system_ms /\
    tag r = nth 3 (fields line) "" /\
    dict_get (tag r) channels = Some ch /\
    line_base H base_dt system_ms = Ok b /\
    (6 + i < List.length (fields line))%nat /\
    (0 <= declared_count (fields line) ->
     Z.of_nat i < declared_count (fields line)) /\
    float_of_str (nth (6 + i) (fields line) "") = Ok (value r) /\
    sample_offset i (effective_rate ch) = Ok off /\
    timestamp r = b + off.
Proof.
  intros Hrs Hin. apply parse_line_ok in Hrs.
  destruct Hrs as [->|(system_ms & ch & b & Hlen & Hms & Hch & Hb & Hrs)];
    [destruct Hin|].
  destruct (emit_samples_In _ _ _ _ _ _ _ Hrs Hin)
    as (k & val & off & Hk & Hv & Ho & Ht & Hg).
  apply slice_to_nth_error in Hk. destruct Hk as [Hk Hn].
  rewrite nth_error_skipn in Hk.
  exists system_ms, ch, b, k, off. rewrite Hg.
  repeat split; auto.
  - apply nth_error_Some. rewrite Hk. discriminate.
  - rewrite (nth_error_nth_default _ _ _ "" Hk). exact Hv.
Qed.

Lemma parse_lines_In (H : host) base_dt channels : forall lines rs r,
  parse_lines H base_dt channels lines = Ok rs -> In r rs ->
  exists line rs', In line lines /\
    parse_line H base_dt channels line = Ok rs' /\ In r rs'.
Proof.
  induction lines as [|l rest IH]; simpl; intros rs r Hrs Hin.
  - injection Hrs as <-. destruct Hin.
  - inv_bind Hrs. inv_bind Hrs. injection Hrs as <-.
    apply in_app_or in Hin. destruct Hin as [Hin|Hin].
    + exists l, a. auto.
    + destruct (IH _ _ Ha0 Hin) as (line & rs' & Hl & Hp & Hr).
      exists line, rs'. auto.
Qed.

(** A Long Record carries a registered tag. *)
Lemma long_records_registered (H : host) (lines : list string)
    (created : json) (channels : dict channel) (rs : list record)
    (r : record) :
  long_records H lines created channels = Ok rs -> In r rs ->
  exists ch, dict_get (tag r) channels = Some ch.
Proof.
  unfold long_records. intros Hrs Hin. inv_bind Hrs.
  destruct (parse_lines_In _ _ _ _ _ _ Hrs Hin) as (line & rs' & _ & Hp & Hr).
  destruct (parse_line_In _ _ _ _ _ _ Hp Hr)
    as (system_ms & ch & _ & _ & _ & _ & _ & Hch & _).
  eauto.
Qed.

Lemma accel_line_records (H : host) (channels : dict channel) (ch : channel) :
  dict_get "AA" channels = Some ch ->
  nominal_srate ch = JInt 25 \/ nominal_srate ch = JFloat 25 ->
  parse_line H None channels accel_line = Ok accel_records.
Proof.
  intros Hch Hsr. unfold parse_line.
  change (strip accel_line) with accel_line.
  change (String.eqb accel_line "") with false. cbv iota.
  change (map strip (split "," accel_line))
    with ["1000"; "x"; "2"; "AA"; "x"; "x"; "0.1"; "0.2"].
  cbn [List.length Nat.ltb Nat.leb nth skipn].
  change (int_of_str "1000") with (@Ok Z 1000).
  change (int_of_str "2") with (@Ok Z 2). cbv iota beta.
  rewrite Hch. unfold effective_rate.
  destruct Hsr as [-> | ->]; vm_compute; reflexivity.
Qed.

(** C1: with the tag "AA" registered under the label "Accelerometer_AA" at
    25 Hz and no recording start (none, or an empty one), the line
    "1000,x,2,AA,x,x,0.1,0.2" gives exactly two Long Records, (1000 ms, 0.1)
    and (1040 ms, 0.2), and the column of the tag in the wide table is headed
    "Accelerometer_AA". *)
Theorem C1_accelerometer_scenario (H : host) (fs : files) (csv_path : string)
    (created : json) (channels : dict channel) (ch : channel) :
  truthy created = false ->
  read_lines fs csv_path = Ok [accel_line] ->
  dict_get "AA" channels = Some ch ->
  label ch = "Accelerometer_AA" ->
  nominal_srate ch = JInt 25 \/ nominal_srate ch = JFloat 25 ->
  long_records H [accel_line] created channels = Ok accel_records /\
  exists h_ts h_time,
    parse_emotibit_csv H fs csv_path created channels =
    Ok [ (h_ts, IntCol [1000; 1040]);
         (h_time, FloatCol [0; 0.04]%float);
         ("Accelerometer_AA", FloatCol [0.1; 0.2]%float) ].
Proof.
  intros Hunset Hfile Hch Hlabel Hsr.
  assert (Hstart : parse_created_at H created = Ok None).
  { unfold parse_created_at. rewrite Hunset. reflexivity. }
  pose proof (accel_line_records H channels ch Hch Hsr) as Hline.
  assert (Hrecs : parse_lines H None channels [accel_line] = Ok accel_records).
  { simpl. rewrite Hline. reflexivity. }
  split.
  - unfold long_records. rewrite Hstart. cbn [bind]. exact Hrecs.
  - unfold parse_emotibit_csv. rewrite Hstart. cbn [bind].
    rewrite Hfile. cbn [bind]. rewrite Hrecs. cbn [bind].
    unfold wide_table.
    change (pivot_table accel_records)
      with ([1000; 1040], [("AA", [0.1; 0.2]%float)]).
    cbv beta iota zeta.
    change (in_str "timestamp" (map fst [("AA", [0.1; 0.2]%float)])) with false.
    change (in_str "Time" (map fst [("AA", [0.1; 0.2]%float)])) with false.
    cbv iota.
    change (time_column 1000 [1000; 1040]) with [0; 0.04]%float.
    unfold rename. cbn [map fst snd]. rewrite Hch, Hlabel.
    eexists. eexists. reflexivity.
Qed.

Lemma C1_accelerometer_scenario_witness :
  long_records example_host [accel_line] JNull accel_channels
    = Ok accel_records /\
  exists h_ts h_time,
    parse_emotibit_csv example_host accel_files "dev001.csv" JNull
      accel_channels =
    Ok [ (h_ts, IntCol [1000; 1040]);
         (h_time, FloatCol [0; 0.04]%float);
         ("Accelerometer_AA", FloatCol [0.1; 0.2]%float) ].
Proof.
  apply (C1_accelerometer_scenario example_host accel_files "dev001.csv"
           JNull accel_channels
           {| label := "Accelerometer_AA"; nominal_srate := JInt 25;
              units := JNull;
              raw_info := JObj [("name", JStr "Accelerometer");
                                ("typeTags", JArr [JStr "AA"]);
                                ("nominal_srate", JInt 25)] |}).
  - reflexivity.
  - reflexivity.
  - reflexivity.
  - reflexivity.
  - left. reflexivity.
Defined.

(** With a declared count that is not negative, a line adds at most that
    many Long Records, each from a value whose index is below the count. *)
Lemma records_within_declared_count (H : host) base_dt channels line rs :
  parse_line H base_dt channels line = Ok rs ->
  0 <= declared_count (fields line) ->
  Z.of_nat (List.length rs) <= declared_count (fields line) /\
  forall r, In r rs ->
    exists i, Z.of_nat i < declared_count (fields line) /\
      float_of_str (nth (6 + i) (fields line) "") = Ok (value r).
Proof.
  intros Hrs Hn. split.
  - destruct (parse_line_ok _ _ _ _ _ Hrs)
      as [->|(system_ms & ch & b & Hlen & Hms & Hch & Hb & Hem)];
      [simpl; lia|].
    apply emit_samples_length in Hem.
    unfold slice_to in Hem.
    destruct (Z.ltb_spec (declared_count (fields line)) 0); [lia|].
    rewrite length_firstn in Hem. lia.
  - intros r Hin.
    destruct (parse_line_In _ _ _ _ _ _ Hrs Hin)
      as (system_ms & ch & b & i & off & _ & _ & _ & _ & _ & Hi & Hv & _).
    exists i. auto.
Qed.

(** A declared count that is not an integer counts as 1. *)
Lemma unparseable_count_one_value :
  parse_line example_host None accel_channels unparseable_count_line
  = Ok [ {| timestamp := 1000; tag := "AA"; value := 0.1 |} ].
Proof. vm_compute. reflexivity. Qed.

(** Five values with a declared count of 2: the first two are emitted. *)
Lemma five_values_count_two :
  parse_line example_host None accel_channels five_values_line
  = Ok accel_records.
Proof. vm_compute. reflexivity. Qed.

(** C8, at a negative declared count: the slice [values[:-1]] drops the last
    value only, so the line with the count -1 and three values emits the
    samples of index 0 and 1, both at or beyond the declared count. *)
Theorem C8_negative_count_emits :
  declared_count (fields negative_count_line) = -1 /\
  parse_line example_host None accel_channels negative_count_line
  = Ok accel_records.
Proof. split; vm_compute; reflexivity. Qed.

(** C9: the timestamp of a Long Record is the base timestamp [b] of its line
    plus the float [(i * 1.0 / sr) * 1000.0] of its sample index [i] and the
    rate [sr] of its tag, cut to its integer part toward zero: the fraction
    is dropped, not rounded. With a rate above zero the stored offset is at
    most the value of that float and less than one millisecond below it. *)
Theorem C9_offset_truncated (H : host) (lines : list string) (created : json)
    (channels : dict channel) (rs : list record) (r : record) :
  long_records H lines created channels = Ok rs -> In r rs ->
  exists base_dt line system_ms ch b i x q,
    parse_created_at H created = Ok base_dt /\
    In line lines /\
    int_of_str (nth 0 (fields line) "") = Ok system_ms /\
    line_base H base_dt system_ms = Ok b /\
    tag r = nth 3 (fields line) "" /\
    dict_get (tag r) channels = Some ch /\
    float_of_str (nth (6 + i) (fields line) "") = Ok (value r) /\
    offset_ms i (effective_rate ch) = Ok x /\
    float_value x = Some q /\
    timestamp r = b + Qtrunc q /\
    (rate_positive (effective_rate ch) ->
     (inject_Z (Qtrunc q) <= q < inject_Z (Qtrunc q) + 1)%Q).
Proof.
  unfold long_records. intros Hrs Hin. inv_bind Hrs.
  destruct (parse_lines_In _ _ _ _ _ _ Hrs Hin) as (line & rs' & Hl & Hp & Hr).
  destruct (parse_line_In _ _ _ _ _ _ Hp Hr)
    as (system_ms & ch & b & i & off & Hms & Hg & Hch & Hb & Hi & Hn & Hv & Ho & Ht).
  unfold sample_offset in Ho. inv_bind Ho.
  destruct (int_of_float_trunc _ _ Ho) as (q & Hq & Hz).
  exists a, line, system_ms, ch, b, i, a0, q. subst off.
  repeat split; auto.
  - apply Qtrunc_nonneg_bounds. eapply float_value_nonneg; eauto.
    eapply offset_ms_nonneg; eauto.
  - apply Qtrunc_nonneg_bounds. eapply float_value_nonneg; eauto.
    eapply offset_ms_nonneg; eauto.
Qed.

Lemma C9_offset_truncated_witness :
  exists base_dt line system_ms ch b i x q,
    parse_created_at example_host JNull = Ok base_dt /\
    In line [accel_line] /\
    int_of_str (nth 0 (fields line) "") = Ok system_ms /\
    line_base example_host base_dt system_ms = Ok b /\
    "AA" = nth 3 (fields line) "" /\
    dict_get "AA" accel_channels = Some ch /\
    float_of_str (nth (6 + i) (fields line) "") = Ok 0.2%float /\
    offset_ms i (effective_rate ch) = Ok x /\
    float_value x = Some q /\
    1040 = b + Qtrunc q /\
    (rate_positive (effective_rate ch) ->
     (inject_Z (Qtrunc q) <= q < inject_Z (Qtrunc q) + 1)%Q).
Proof.
  apply (C9_offset_truncated example_host [accel_line] JNull accel_channels
           accel_records {| timestamp := 1040; tag := "AA"; value := 0.2 |}).
  - vm_compute. reflexivity.
  - simpl. auto.
Defined.

(** C10: a line with [p >= 7] fields adds at most [p - 6] Long Records,
    whatever its declared count is, and the value of each comes from a field
    of the line at an index from 6 up to [p - 1]. *)
Theorem C10_records_within_line (H : host) (base_dt : option (datetime H))
    (channels : dict channel) (line : string) (rs : list record) :
  parse_line H base_dt channels line = Ok rs ->
  (7 <= List.length (fields line))%nat ->
  (List.length rs <= List.length (fields line) - 6)%nat /\
  forall r, In r rs ->
    exists i, (6 + i < List.length (fields line))%nat /\
      float_of_str (nth (6 + i) (fields line) "") = Ok (value r).
Proof.
  intros Hrs Hp. split.
  - destruct (parse_line_ok _ _ _ _ _ Hrs)
      as [->|(system_ms & ch & b & Hlen & Hms & Hch & Hb & Hem)];
      [simpl; lia|].
    apply emit_samples_length in Hem.
    pose proof (slice_to_length (declared_count (fields line))
                  (skipn 6 (fields line))) as Hs.
    rewrite length_skipn in Hs. lia.
  - intros r Hin.
    destruct (parse_line_In _ _ _ _ _ _ Hrs Hin)
      as (system_ms & ch & b & i & off & _ & _ & _ & _ & Hi & _ & Hv & _).
    exists i. auto.
Qed.

Lemma C10_records_within_line_witness :
  (List.length accel_records <= List.length (fields overlong_line) - 6)%nat /\
  forall r, In r accel_records ->
    exists i, (6 + i < List.length (fields overlong_line))%nat /\
      float_of_str (nth (6 + i) (fields overlong_line) "") = Ok (value r).
Proof.
  apply (C10_records_within_line example_host None accel_channels
           overlong_line accel_records).
  - vm_compute. reflexivity.
  - vm_compute. lia.
Defined.

(** ** Sorted indexes *)

Section SortedUniq.

Context {A : Type} (cmp : A -> A -> comparison).

Hypothesis cmp_eq : forall x y, cmp x y = Eq -> x = y.
Hypothesis cmp_gt : forall x y, cmp x y = Gt -> cmp y x = Lt.
Hypothesis cmp_trans :
  forall x y z, cmp x y = Lt -> cmp y z = Lt -> cmp x z = Lt.
Hypothesis cmp_irrefl : forall x, cmp x x <> Lt.

Let lt (x y : A) : Prop := cmp x y = Lt.

Lemma insert_uniq_In (x : A) : forall (l : list A) (y : A),
  In y (insert_uniq cmp x l) <-> y = x \/ In y l.
Proof.
  induction l as [|z l IH]; simpl; intros y.
  - intuition.
  - destruct (cmp x z) eqn:Hc; simpl.
    + apply cmp_eq in Hc. subst z. intuition.
    + intuition.
    + rewrite IH. intuition.
Qed.

Lemma insert_uniq_sorted (x : A) : forall l : list A,
  StronglySorted lt l -> StronglySorted lt (insert_uniq cmp x l).
Proof.
  induction l as [|z l IH]; simpl; intros Hs.
  - constructor; [constructor | constructor].
  - destruct (cmp x z) eqn:Hc.
    + assumption.
    + constructor; [assumption|].
      apply StronglySorted_inv in Hs. destruct Hs as [_ Hz].
      constructor; [exact Hc|].
      eapply Forall_impl; [|exact Hz]. intros a Ha. eapply cmp_trans; eauto.
    + apply StronglySorted_inv in Hs. destruct Hs as [Hl Hz].
      constructor; [auto|].
      apply Forall_forall. intros y Hy. apply insert_uniq_In in Hy.
      destruct Hy as [->|Hy].
      * now apply cmp_gt.
      * rewrite Forall_forall in Hz. auto.
Qed.

Lemma sorted_uniq_In (l : list A) (y : A) :
  In y (sorted_uniq cmp l) <-> In y l.
Proof.
  induction l as [|x l IH]; simpl.
  - tauto.
  - rewrite insert_uniq_In, IH. intuition.
Qed.

Lemma sorted_uniq_sorted (l : list A) : StronglySorted lt (sorted_uniq cmp l).
Proof.
  induction l as [|x l IH]; simpl.
  - constructor.
  - now apply insert_uniq_sorted.
Qed.

Lemma strictly_sorted_NoDup (l : list A) : StronglySorted lt l -> NoDup l.
Proof.
  induction 1 as [|a l Hs IH Ha]; constructor; [|assumption].
  intros Hin. rewrite Forall_forall in Ha. apply (cmp_irrefl a). now apply Ha.
Qed.

End SortedUniq.

Lemma ascii_compare_trans (a b c : ascii) :
  Ascii.compare a b = Lt -> Ascii.compare b c = Lt -> Ascii.compare a c = Lt.
Proof.
  unfold Ascii.compare. rewrite !N.compare_lt_iff. apply N.lt_trans.
Qed.

Lemma string_compare_trans : forall x y z : string,
  String.compare x y = Lt -> String.compare y z = Lt ->
  String.compare x z = Lt.
Proof.
  induction x as [|a x IH]; intros [|b y] [|c z]; simpl; try discriminate; auto.
  destruct (Ascii.compare a b) eqn:Hab; try discriminate;
    destruct (Ascii.compare b c) eqn:Hbc; try discriminate; intros Hxy Hyz.
  - apply Ascii.compare_eq_iff in Hab, Hbc. subst.
    destruct (Ascii.compare c c) eqn:Hcc.
    + eapply IH; eauto.
    + reflexivity.
    + pose proof (Ascii.compare_antisym c c) as Ha.
      rewrite Hcc in Ha. discriminate.
  - apply Ascii.compare_eq_iff in Hab. subst. rewrite Hbc. reflexivity.
  - apply Ascii.compare_eq_iff in Hbc. subst. rewrite Hab. reflexivity.
  - rewrite (ascii_compare_trans _ _ _ Hab Hbc). reflexivity.
Qed.

Lemma string_compare_gt (x y : string) :
  String.compare x y = Gt -> String.compare y x = Lt.
Proof.
  intros Hc. rewrite String.compare_antisym, Hc. reflexivity.
Qed.

Lemma string_compare_irrefl (x : string) : String.compare x x <> Lt.
Proof.
  intros Hc. pose proof (String.compare_antisym x x) as Ha.
  rewrite Hc in Ha. discriminate.
Qed.

Lemma Z_compare_trans (x y z : Z) :
  Z.compare x y = Lt -> Z.compare y z = Lt -> Z.compare x z = Lt.
Proof. rewrite !Z.compare_lt_iff. lia. Qed.

Lemma Z_compare_gt (x y : Z) : Z.compare x y = Gt -> Z.compare y x = Lt.
Proof. rewrite Z.compare_gt_iff, Z.compare_lt_iff. lia. Qed.

Lemma Z_compare_irrefl (x : Z) : Z.compare x x <> Lt.
Proof. rewrite Z.compare_refl. discriminate. Qed.

(** ** The reshaper: the pivot *)

Lemma pivot_index_sorted (rs : list record) :
  StronglySorted Z.lt (fst (pivot_table rs)).
Proof.
  unfold pivot_table. cbn [fst].
  apply (sorted_uniq_sorted Z.compare Z.compare_eq Z_compare_gt Z_compare_trans).
Qed.

Lemma pivot_index_In (rs : list record) (ts : Z) :
  In ts (fst (pivot_table rs)) <->
  exists r, In r rs /\ timestamp r = ts /\ numeric_group rs ts (tag r).
Proof.
  unfold pivot_table, numeric_group. cbn [fst].
  rewrite (sorted_uniq_In Z.compare Z.compare_eq), in_map_iff. split.
  - intros (r & Hts & Hr). apply filter_In in Hr. destruct Hr as [Hr Hn].
    exists r. subst ts. auto.
  - intros (r & Hr & Hts & Hn). exists r. split; [assumption|].
    apply filter_In. subst ts. auto.
Qed.

Lemma pivot_tags_eq (rs : list record) :
  pivot_tags rs =
  sorted_uniq String.compare
    (map tag
       (filter (fun r => not_nan (pd_mean (group_values rs (timestamp r) (tag r))))
               rs)).
Proof.
  unfold pivot_tags, pivot_table. cbn [snd]. rewrite map_map. cbn [fst].
  apply map_id.
Qed.

Lemma pivot_tags_sorted (rs : list record) :
  StronglySorted (fun x y => String.compare x y = Lt) (pivot_tags rs).
Proof.
  rewrite pivot_tags_eq.
  apply (sorted_uniq_sorted String.compare String.compare_eq_iff
           string_compare_gt string_compare_trans).
Qed.

Lemma pivot_tags_NoDup (rs : list record) : NoDup (pivot_tags rs).
Proof.
  apply (strictly_sorted_NoDup String.compare string_compare_irrefl).
  apply pivot_tags_sorted.
Qed.

Lemma pivot_tags_In (rs : list record) (tg : string) :
  In tg (pivot_tags rs) <->
  exists r, In r rs /\ tag r = tg /\ numeric_group rs (timestamp r) tg.
Proof.
  rewrite pivot_tags_eq. unfold numeric_group.
  rewrite (sorted_uniq_In String.compare String.compare_eq_iff), in_map_iff.
  split.
  - intros (r & Htg & Hr). apply filter_In in Hr. destruct Hr as [Hr Hn].
    exists r. subst tg. auto.
  - intros (r & Hr & Htg & Hn). exists r. split; [assumption|].
    apply filter_In. subst tg. auto.
Qed.

Lemma pivot_columns (rs : list record) :
  snd (pivot_table rs) =
  map (fun tg =>
         (tg, map (fun ts => pd_mean (group_values rs ts tg))
                  (fst (pivot_table rs))))
      (pivot_tags rs).
Proof.
  rewrite pivot_tags_eq. unfold pivot_table. cbn [fst snd]. reflexivity.
Qed.

Lemma pd_mean_nil : pd_mean [] = nan.
Proof. reflexivity. Qed.

(** A group with a numeric mean holds a record. *)
Lemma numeric_group_record (rs : list record) (ts : Z) (tg : string) :
  numeric_group rs ts tg ->
  exists r, In r rs /\ timestamp r = ts /\ tag r = tg.
Proof.
  unfold numeric_group, group_values. intros Hn.
  destruct (filter _ rs) as [|r l] eqn:Hf.
  - simpl in Hn. discriminate.
  - assert (Hr : In r (filter (fun r => (timestamp r =? ts) && String.eqb (tag r) tg) rs))
      by (rewrite Hf; now left).
    apply filter_In in Hr. destruct Hr as [Hr Hb].
    apply andb_true_iff in Hb. destruct Hb as [Hts Htg].
    apply Z.eqb_eq in Hts. apply String.eqb_eq in Htg. eauto.
Qed.

Lemma filter_idem {A : Type} (f : A -> bool) (l : list A) :
  filter f (filter f l) = filter f l.
Proof.
  induction l as [|x l IH]; simpl; [reflexivity|].
  destruct (f x) eqn:Hx; simpl; [rewrite Hx, IH; reflexivity | exact IH].
Qed.

(** The mean skips the values that are NaN. *)
Lemma pd_mean_skips_nan (vs : list float) :
  pd_mean vs = pd_mean (filter not_nan vs).
Proof. unfold pd_mean. rewrite filter_idem. reflexivity. Qed.

Lemma float_sub_zero (x : float) : PrimFloat.sub x 0 = x.
Proof.
  apply Prim2SF_inj. rewrite sub_spec.
  change (Prim2SF 0) with (S754_zero false).
  destruct (Prim2SF x) as [[]|[]| |s m e]; reflexivity.
Qed.

(** After the first value the compensation is 0: the difference is +0, or
    NaN for an infinite value and then set back. *)
Lemma first_compensation (v : float) :
  (let c := PrimFloat.sub (PrimFloat.add 0 v) v in
   if is_nan c then 0%float else c) = 0%float.
Proof.
  cbv zeta.
  assert (Hc : Prim2SF (PrimFloat.sub (PrimFloat.add 0 v) v) = S754_zero false
               \/ Prim2SF (PrimFloat.sub (PrimFloat.add 0 v) v) = S754_nan).
  { rewrite sub_spec, add_spec. change (Prim2SF 0) with (S754_zero false).
    destruct (Prim2SF v) as [[]|[]| |s m e]; try (left; reflexivity);
      try (right; reflexivity).
    left. unfold SF64add, SF64sub, SFadd, SFsub.
    rewrite Z.sub_diag. reflexivity. }
  destruct Hc as [Hc|Hc].
  - replace (PrimFloat.sub (PrimFloat.add 0 v) v) with 0%float
      by (apply Prim2SF_inj; rewrite Hc; reflexivity).
    reflexivity.
  - replace (PrimFloat.sub (PrimFloat.add 0 v) v) with nan
      by (apply Prim2SF_inj; rewrite Hc; reflexivity).
    reflexivity.
Qed.

Lemma kahan_first (v : float) :
  kahan_step (0%float, 0%float) v = (PrimFloat.add 0 v, 0%float).
Proof.
  unfold kahan_step. cbn [fst snd]. rewrite !float_sub_zero.
  f_equal. apply first_compensation.
Qed.

(** Up to two values the compensated sum is the sum left to right: the
    compensation comes in with the third value. *)
Lemma compensated_sum_short (vs : list float) :
  (List.length vs <= 2)%nat -> compensated_sum vs = fsum vs.
Proof.
  destruct vs as [|v1 [|v2 [|v3 vs]]]; simpl; intros Hl; try lia.
  - reflexivity.
  - unfold compensated_sum, fsum. cbn [fold_left].
    rewrite kahan_first. reflexivity.
  - unfold compensated_sum, fsum. cbn [fold_left]. rewrite kahan_first.
    unfold kahan_step. cbn [fst snd]. rewrite float_sub_zero. reflexivity.
Qed.

(** With a third value the two sums part in the last bits. *)
Lemma compensated_mean_three_values :
  pd_mean [0.1; 0.2; 0.3]%float = 0.19999999999999998%float /\
  arithmetic_mean [0.1; 0.2; 0.3]%float = 0.20000000000000004%float.
Proof. split; vm_compute; reflexivity. Qed.

(** On one or two values that are numbers the mean is their sum over their
    number. *)
Lemma pd_mean_short (vs : list float) :
  vs <> [] -> (List.length vs <= 2)%nat ->
  (forall v, In v vs -> is_nan v = false) ->
  pd_mean vs = arithmetic_mean vs.
Proof.
  intros Hne Hlen Hnum. unfold pd_mean, arithmetic_mean.
  assert (Hf : filter not_nan vs = vs).
  { clear Hne Hlen. induction vs as [|v vs IH]; simpl; [reflexivity|].
    unfold not_nan at 1. rewrite (Hnum v (or_introl eq_refl)). simpl.
    f_equal. apply IH. intros w Hw. apply Hnum. now right. }
  rewrite Hf. destruct vs as [|v vs']; [congruence|].
  rewrite (compensated_sum_short (v :: vs') Hlen). reflexivity.
Qed.

Lemma rename_columns (channels : dict channel) (df : DataFrame) :
  map snd (rename channels df) = map snd df.
Proof.
  unfold rename. rewrite map_map. reflexivity.
Qed.

Lemma headers_rename (channels : dict channel) (df : DataFrame) :
  headers (rename channels df) = map (header_of channels) (headers df).
Proof.
  unfold headers, rename, header_of. rewrite !map_map. reflexivity.
Qed.

(** How [wide_table] ends well: without records, or with the pivot laid out
    under the columns "timestamp" and "Time" and renamed. *)
Lemma wide_table_ok (channels : dict channel) (rs : list record)
    (df : DataFrame) :
  wide_table channels rs = Ok df ->
  (rs = [] /\ df = [("timestamp", IntCol [])]) \/
  (exists first_ts rest,
     fst (pivot_table rs) = first_ts :: rest /\
     df = rename channels
            (("timestamp", IntCol (fst (pivot_table rs)))
             :: ("Time", FloatCol (time_column first_ts (fst (pivot_table rs))))
             :: map (fun tc => (fst tc, FloatCol (snd tc)))
                    (snd (pivot_table rs)))).
Proof.
  unfold wide_table. destruct rs as [|r rs].
  { intros [= <-]. left. auto. }
  destruct (pivot_table (r :: rs)) as [index cols]. cbn [fst snd].
  destruct (in_str "timestamp" (map fst cols)); [discriminate|].
  destruct index as [|first_ts rest]; [discriminate|].
  destruct (in_str "Time" (map fst cols)); [discriminate|].
  intros [= <-]. right. exists first_ts, rest. auto.
Qed.

Lemma parse_emotibit_csv_ok (H : host) (fs : files) (csv_path : string)
    (created : json) (channels : dict channel) (df : DataFrame) :
  parse_emotibit_csv H fs csv_path created channels = Ok df ->
  exists lines records,
    read_lines fs csv_path = Ok lines /\
    long_records H lines created channels = Ok records /\
    wide_table channels records = Ok df.
Proof.
  unfold parse_emotibit_csv, long_records. intros Hdf.
  inv_bind Hdf. inv_bind Hdf. inv_bind Hdf.
  exists a0, a1. rewrite Ha. auto.
Qed.

(** C2, as the code has it: a wide table with rows has a strictly
    increasing timestamp index and one column per tag, no tag twice. A
    timestamp is a row, and a tag a column, exactly when one of its
    (timestamp, tag) groups has a mean that is a number: a timestamp whose
    samples all read "nan" has no row. The cell of a row and a tag is the
    mean pandas takes of the values of the Long Records at that pair: the
    values that are NaN are skipped, and the sum is compensated; for one or
    two values, all numbers, it is their sum over their number. *)
Theorem C2_sorted_index_and_means (H : host) (fs : files) (csv_path : string)
    (created : json) (channels : dict channel) (df : DataFrame) :
  parse_emotibit_csv H fs csv_path created channels = Ok df ->
  nrows df <> O ->
  exists lines records index tags,
    read_lines fs csv_path = Ok lines /\
    long_records H lines created channels = Ok records /\
    StronglySorted Z.lt index /\
    NoDup tags /\
    (forall ts, In ts index <-> exists tg, numeric_group records ts tg) /\
    (forall tg, In tg tags <-> exists ts, numeric_group records ts tg) /\
    map snd df =
      IntCol index
      :: FloatCol (time_column (hd 0 index) index)
      :: map (fun tg =>
                FloatCol (map (fun ts => pd_mean (group_values records ts tg))
                              index)) tags /\
    (forall ts tg,
       pd_mean (group_values records ts tg)
       = pd_mean (filter not_nan (group_values records ts tg))) /\
    (forall ts tg,
       group_values records ts tg <> [] ->
       (List.length (group_values records ts tg) <= 2)%nat ->
       (forall v, In v (group_values records ts tg) -> is_nan v = false) ->
       pd_mean (group_values records ts tg)
       = arithmetic_mean (group_values records ts tg)).
Proof.
  intros Hdf Hrows.
  destruct (parse_emotibit_csv_ok _ _ _ _ _ _ Hdf)
    as (lines & records & Hlines & Hrecs & Hwide).
  destruct (wide_table_ok _ _ _ Hwide)
    as [[_ ->]|(first_ts & rest & Hidx & ->)]; [now elim Hrows|].
  exists lines, records, (fst (pivot_table records)), (pivot_tags records).
  repeat split; auto.
  - apply pivot_index_sorted.
  - apply pivot_tags_NoDup.
  - intros Hts. apply pivot_index_In in Hts.
    destruct Hts as (r & _ & _ & Hn). eauto.
  - intros [tg Hn]. apply pivot_index_In.
    destruct (numeric_group_record _ _ _ Hn) as (r & Hr & Hts & Htg).
    exists r. subst tg. auto.
  - intros Htg. apply pivot_tags_In in Htg.
    destruct Htg as (r & _ & _ & Hn). eauto.
  - intros [ts Hn]. apply pivot_tags_In.
    destruct (numeric_group_record _ _ _ Hn) as (r & Hr & Hts & Htg).
    exists r. subst ts. auto.
  - rewrite rename_columns. cbn [map snd].
    replace (hd 0 (fst (pivot_table records))) with first_ts
      by (rewrite Hidx; reflexivity).
    rewrite pivot_columns, !map_map. reflexivity.
  - intros ts tg. apply pd_mean_skips_nan.
  - intros ts tg Hne Hlen Hnum. now apply pd_mean_short.
Qed.

Lemma C2_sorted_index_and_means_witness :
  exists lines records index tags,
    read_lines two_stream_files "dev001.csv" = Ok lines /\
    long_records example_host lines JNull two_stream_channels = Ok records /\
    StronglySorted Z.lt index /\
    NoDup tags /\
    (forall ts, In ts index <-> exists tg, numeric_group records ts tg) /\
    (forall tg, In tg tags <-> exists ts, numeric_group records ts tg) /\
    map snd two_stream_table =
      IntCol index
      :: FloatCol (time_column (hd 0 index) index)
      :: map (fun tg =>
                FloatCol (map (fun ts => pd_mean (group_values records ts tg))
                              index)) tags /\
    (forall ts tg,
       pd_mean (group_values records ts tg)
       = pd_mean (filter not_nan (group_values records ts tg))) /\
    (forall ts tg,
       group_values records ts tg <> [] ->
       (List.length (group_values records ts tg) <= 2)%nat ->
       (forall v, In v (group_values records ts tg) -> is_nan v = false) ->
       pd_mean (group_values records ts tg)
       = arithmetic_mean (group_values records ts tg)).
Proof.
  apply (C2_sorted_index_and_means example_host two_stream_files "dev001.csv"
           JNull two_stream_channels two_stream_table).
  - vm_compute. reflexivity.
  - discriminate.
Defined.

(** C2 as stated fails: the file has Long Records at 1000 ms and at 1040 ms
    and its wide table has rows, but the only sample at 1040 ms reads "nan"
    and the table has no row for it; and the two Long Records that share
    (1000, "AA") have the values 0.1 and NaN, whose arithmetic mean is NaN,
    while the cell holds 0.1. *)
Lemma C2_nan_rows_counterexample :
  parse_emotibit_csv example_host nan_mean_files "dev001.csv" JNull
    accel_channels = Ok nan_mean_table /\
  nrows nan_mean_table <> O /\
  long_records example_host nan_mean_lines JNull accel_channels
  = Ok nan_mean_records /\
  In 1040 (map timestamp nan_mean_records) /\
  dict_get "timestamp" nan_mean_table = Some (IntCol [1000]) /\
  group_values nan_mean_records 1000 "AA" = [0.1%float; nan] /\
  dict_get "Accelerometer_AA" nan_mean_table = Some (FloatCol [0.1%float]) /\
  is_nan (arithmetic_mean (group_values nan_mean_records 1000 "AA")) = true.
Proof.
  split; [vm_compute; reflexivity|].
  split; [discriminate|].
  split; [vm_compute; reflexivity|].
  split; [simpl; auto|].
  repeat split; reflexivity.
Qed.

Lemma NoDup_unique_index {A : Type} (l : list A) (x : A) :
  NoDup l -> In x l ->
  exists i, forall j, nth_error l j = Some x <-> j = i.
Proof.
  intros Hnd Hin. apply In_nth_error in Hin. destruct Hin as [i Hi].
  exists i. intros j. split.
  - intros Hj. rewrite NoDup_nth_error in Hnd. apply Hnd.
    + apply nth_error_Some. rewrite Hj. discriminate.
    + congruence.
  - now intros ->.
Qed.

(** C3, as the code has it: a tag with a sample whose (timestamp, tag) group
    has a mean that is a number was registered by a stream record, stands in
    exactly one column of the wide table, and that column is headed by the
    name of the last stream record listing the tag, joined with the tag by
    "_", all spaces removed. *)
Theorem C3_registered_tag_has_column (H : host) (data : json)
    (device_meta : dict json) (channels : dict channel) (fs : files)
    (csv_path : string) (created : json) (df : DataFrame)
    (lines : list string) (records : list record) (ts : Z) (tg : string) :
  load_document H data = Ok (device_meta, channels) ->
  parse_emotibit_csv H fs csv_path created channels = Ok df ->
  read_lines fs csv_path = Ok lines ->
  long_records H lines created channels = Ok records ->
  numeric_group records ts tg ->
  exists name i,
    registrant (streams data) tg = Some name /\
    headers df
    = map (header_of channels) ("timestamp" :: "Time" :: pivot_tags records) /\
    (forall j, nth_error (pivot_tags records) j = Some tg <-> j = i) /\
    nth_error (headers df) (2 + i) = Some (name_tag H name tg).
Proof.
  intros Hload Hdf Hlines Hrecs Hnum.
  destruct (parse_emotibit_csv_ok _ _ _ _ _ _ Hdf)
    as (lines' & records' & Hlines' & Hrecs' & Hwide).
  assert (lines' = lines) by congruence. subst lines'.
  assert (records' = records) by congruence. subst records'.
  destruct (numeric_group_record _ _ _ Hnum) as (r & Hr & Hts & Htg).
  destruct (wide_table_ok _ _ _ Hwide)
    as [[-> _]|(first_ts & rest & Hidx & ->)]; [destruct Hr|].
  assert (Hin : In tg (pivot_tags records)).
  { apply pivot_tags_In. exists r. subst ts. auto. }
  destruct (NoDup_unique_index _ _ (pivot_tags_NoDup records) Hin) as [i Hi].
  destruct (long_records_registered _ _ _ _ _ _ Hrecs Hr) as [ch Hch].
  rewrite Htg in Hch.
  pose proof (register_streams_label H tg _ _ _
                (load_document_streams _ _ _ _ Hload)) as Hlabel.
  rewrite Hch in Hlabel. cbn [option_map dict_get] in Hlabel.
  destruct (registrant (streams data) tg) as [name|]; [|discriminate].
  injection Hlabel as Hlabel.
  assert (Hheaders :
            headers (rename channels
              (("timestamp", IntCol (fst (pivot_table records)))
               :: ("Time", FloatCol (time_column first_ts (fst (pivot_table records))))
               :: map (fun tc => (fst tc, FloatCol (snd tc)))
                      (snd (pivot_table records))))
            = map (header_of channels)
                  ("timestamp" :: "Time" :: pivot_tags records)).
  { rewrite headers_rename. unfold headers, pivot_tags. cbn [map fst].
    rewrite !map_map. reflexivity. }
  exists name, i. split; [reflexivity|]. split; [exact Hheaders|].
  split; [exact Hi|].
  rewrite Hheaders. cbn [map Nat.add nth_error].
  rewrite nth_error_map. rewrite (proj2 (Hi i) eq_refl). cbn [option_map].
  unfold header_of. rewrite Hch, Hlabel. reflexivity.
Qed.

Lemma C3_registered_tag_has_column_witness :
  name_tag example_host (JStr "Heart Rate") "HR" = "HeartRate_HR" /\
  exists name i,
    registrant (streams two_stream_doc) "HR" = Some name /\
    headers two_stream_table
    = map (header_of two_stream_channels)
          ("timestamp" :: "Time" :: pivot_tags two_stream_records) /\
    (forall j, nth_error (pivot_tags two_stream_records) j = Some "HR"
               <-> j = i) /\
    nth_error (headers two_stream_table) (2 + i)
    = Some (name_tag example_host name "HR").
Proof.
  split; [reflexivity|].
  apply (C3_registered_tag_has_column example_host two_stream_doc
           [("name", JStr "EmotiBit"); ("__device_name__", JStr "EmotiBit");
            ("__device_id__", JStr "EmotiBit")]
           two_stream_channels two_stream_files "dev001.csv" JNull
           two_stream_table two_stream_lines two_stream_records 1000 "HR").
  - vm_compute. reflexivity.
  - vm_compute. reflexivity.
  - reflexivity.
  - vm_compute. reflexivity.
  - vm_compute. reflexivity.
Defined.

(** C3 as stated fails: the tag "HR" is registered and a line of the file
    carries a sample of it that becomes a Long Record, but the sample reads
    "nan", and the wide table has no column for the tag. *)
Lemma C3_nan_tag_counterexample :
  (exists device_meta,
     load_document example_host two_stream_doc
     = Ok (device_meta, two_stream_channels)) /\
  registrant (streams two_stream_doc) "HR" = Some (JStr "Heart Rate") /\
  long_records example_host nan_lines JNull two_stream_channels
  = Ok nan_records /\
  exists df,
    parse_emotibit_csv example_host nan_files "dev001.csv" JNull
      two_stream_channels = Ok df /\
    headers df = ["timestamp"; "Time"; "Accelerometer_AA"].
Proof.
  split; [eexists; vm_compute; reflexivity|].
  split; [reflexivity|].
  split; [vm_compute; reflexivity|].
  eexists. split; [vm_compute; reflexivity | reflexivity].
Qed.

(** ** The writer *)

Lemma diff_from_consecutive (x : float) : forall l : list float,
  diff_from x l
  = map (fun p => PrimFloat.sub (snd p) (fst p)) (combine (x :: l) l).
Proof.
  intros l. revert x. induction l as [|y l IH]; intros x; simpl.
  - reflexivity.
  - rewrite IH. reflexivity.
Qed.

Lemma diff_from_int_consecutive (x : Z) : forall l : list Z,
  diff_from_int x l
  = map (fun p => nearest_float (snd p - fst p)) (combine (x :: l) l).
Proof.
  intros l. revert x. induction l as [|y l IH]; intros x; simpl.
  - reflexivity.
  - rewrite IH. reflexivity.
Qed.

(** [diff().dropna()] keeps the consecutive differences that are numbers. *)
Lemma dropna_series_diff (c : column) :
  dropna (series_diff c) = dropna (consecutive_differences c).
Proof.
  destruct c as [[|x l]|[|x l]]; simpl; try reflexivity.
  - rewrite diff_from_int_consecutive. reflexivity.
  - rewrite diff_from_consecutive. reflexivity.
Qed.

Lemma median_nil : median [] = nan.
Proof. reflexivity. Qed.

(** The guess of lines 201-205, in the words of the specification. *)
Lemma sampling_rate_guess_spec (df : DataFrame) :
  sampling_rate_guess df =
  match dict_get "Time" df with
  | Some time =>
      let m := median (dropna (consecutive_differences time)) in
      if (2 <=? nrows df)%nat && PrimFloat.ltb 0 m
      then round (PrimFloat.div 1 m)
      else Ok 0
  | None => Ok 0
  end.
Proof.
  unfold sampling_rate_guess.
  destruct (dict_get "Time" df) as [time|]; [|reflexivity].
  cbv zeta. rewrite dropna_series_diff.
  change (1 <? nrows df)%nat with (2 <=? nrows df)%nat.
  destruct (2 <=? nrows df)%nat; [|reflexivity]. simpl andb.
  destruct (dropna (consecutive_differences time)) as [|d ds] eqn:Hd.
  - rewrite median_nil. reflexivity.
  - reflexivity.
Qed.

(** C7: the sampling rate written to the metadata index is
    [round(1 / median)] of the consecutive differences of the "Time" column
    when the table has at least two rows and that median is above zero, and 0
    in every other case. *)
Theorem C7_sampling_rate (out : tree) (out_dir : string) (df : DataFrame)
    (device_meta : dict json) (out' : tree) :
  write_yq_folder out out_dir df device_meta = Ok out' ->
  exists row,
    dict_get (path_join out_dir "metadata.csv") out' = Some (MetaIndex row) /\
    match dict_get "Time" df with
    | Some time =>
        let m := median (dropna (consecutive_differences time)) in
        if (2 <=? nrows df)%nat && PrimFloat.ltb 0 m
        then round (PrimFloat.div 1 m) = Ok (sampling_rate row)
        else sampling_rate row = 0
    | None => sampling_rate row = 0
    end.
Proof.
  unfold write_yq_folder. intros Hw.
  destruct (match dict_get "__device_id__" device_meta with
            | Some v => v
            | None => _
            end) as [| | | |id| |]; try discriminate.
  inv_bind Hw. injection Hw as <-.
  eexists. split; [apply dict_get_set_same|]. cbn [sampling_rate].
  rewrite sampling_rate_guess_spec in Ha.
  destruct (dict_get "Time" df) as [time|]; [|congruence].
  cbv zeta in *.
  destruct ((2 <=? nrows df)%nat && _); congruence.
Qed.

Lemma C7_sampling_rate_witness :
  exists row,
    dict_get "dev001/metadata.csv" accel_folder = Some (MetaIndex row) /\
    sampling_rate row = 25.
Proof.
  destruct (C7_sampling_rate [] "dev001" accel_table accel_meta accel_folder)
    as (row & Hget & Hrate).
  - vm_compute. reflexivity.
  - exists row. split; [exact Hget|].
    vm_compute in Hrate. injection Hrate as Hrate.
    symmetry. exact Hrate.
Defined.

(** ** The matcher *)

Lemma insert_by_len_In (p : string) : forall (l : list string) (c : string),
  In c (insert_by_len p l) <-> c = p \/ In c l.
Proof.
  induction l as [|q l IH]; simpl; intros c.
  - intuition.
  - destruct (name_len p <=? name_len q)%nat; simpl.
    + intuition.
    + rewrite IH. intuition.
Qed.

Lemma sort_by_len_In (l : list string) (c : string) :
  In c (sort_by_len l) <-> In c l.
Proof.
  induction l as [|p l IH]; simpl.
  - tauto.
  - rewrite insert_by_len_In, IH. intuition.
Qed.

(** The head of the sorted candidates has a name of least length. *)
Lemma sort_by_len_head (l : list string) :
  match sort_by_len l with
  | [] => l = []
  | c :: _ => In c l /\ forall c', In c' l -> (name_len c <= name_len c')%nat
  end.
Proof.
  induction l as [|p l IH]; simpl; [reflexivity|].
  destruct (sort_by_len l) as [|c s] eqn:Hs; simpl.
  - subst l. split; [auto|]. intros c' [<-|[]]. lia.
  - destruct IH as [Hin Hmin].
    destruct (Nat.leb_spec (name_len p) (name_len c)) as [Hle|Hlt].
    + split; [auto|]. intros c' [<-|Hc']; [lia|].
      specialize (Hmin c' Hc'). lia.
    + split; [auto|]. intros c' [<-|Hc']; [lia|auto].
Qed.

Lemma sessions_of_In (all_csvs : list string) (s : session) :
  forall all_jsons : list string,
  In s (sessions_of all_jsons all_csvs) <->
  exists j, In j all_jsons /\ match_json all_csvs j = Some s.
Proof.
  unfold sessions_of. intros all_jsons. rewrite in_flat_map. split.
  - intros (j & Hj & Hs). exists j. split; [assumption|].
    destruct (match_json all_csvs j) as [s'|]; simpl in Hs;
      [destruct Hs as [->|[]]; reflexivity | destruct Hs].
  - intros (j & Hj & Hs). exists j. split; [assumption|].
    rewrite Hs. simpl. auto.
Qed.

Lemma match_json_json (all_csvs : list string) (j : string) (s : session) :
  match_json all_csvs j = Some s -> sess_json s = j.
Proof.
  unfold match_json. destruct (base_key j); [|discriminate].
  destruct (sort_by_len _); [discriminate|]. now intros [= <-].
Qed.

(** C5: a metadata file whose base key is matched by measurement files is
    paired, in the one session the matcher makes for it, with a matching
    file whose name is of least length. *)
Theorem C5_shortest_name_wins (walk : list (string * list string))
    (all_jsons all_csvs : list string) (json_path key : string) :
  collect walk = (all_jsons, all_csvs) ->
  In json_path all_jsons ->
  base_key json_path = Some key ->
  (2 <= List.length (candidates key all_csvs))%nat ->
  exists csv_path,
    let s := {| sess_json := json_path; sess_csv := csv_path;
                sess_name := key |} in
    In s (find_emotibit_sessions walk) /\
    (forall s', In s' (find_emotibit_sessions walk) ->
                sess_json s' = json_path -> s' = s) /\
    In csv_path (candidates key all_csvs) /\
    forall c, In c (candidates key all_csvs) ->
              (name_len csv_path <= name_len c)%nat.
Proof.
  intros Hw Hj Hkey Hmany.
  pose proof (sort_by_len_head (candidates key all_csvs)) as Hhead.
  destruct (sort_by_len (candidates key all_csvs)) as [|c rest] eqn:Hs.
  { rewrite Hhead in Hmany. simpl in Hmany. lia. }
  destruct Hhead as [Hin Hmin].
  assert (Hm : match_json all_csvs json_path
               = Some {| sess_json := json_path; sess_csv := c;
                         sess_name := key |}).
  { unfold match_json. rewrite Hkey, Hs. reflexivity. }
  exists c. cbv zeta. unfold find_emotibit_sessions. rewrite Hw.
  repeat split; auto.
  - apply sessions_of_In. exists json_path. auto.
  - intros s' Hs' Hjs'. apply sessions_of_In in Hs'.
    destruct Hs' as (j & _ & Hmj).
    pose proof (match_json_json _ _ _ Hmj) as Hj'.
    rewrite Hjs' in Hj'. subst j. congruence.
Qed.

Lemma C5_shortest_name_wins_witness :
  find_emotibit_sessions dev001_walk = [dev001_session] /\
  exists csv_path,
    let s := {| sess_json := "rec/dev001_info.json"; sess_csv := csv_path;
                sess_name := "dev001" |} in
    In s (find_emotibit_sessions dev001_walk) /\
    (forall s', In s' (find_emotibit_sessions dev001_walk) ->
                sess_json s' = "rec/dev001_info.json" -> s' = s) /\
    In csv_path (candidates "dev001" ["rec/dev001_1.csv"; "rec/dev001.csv"]) /\
    forall c, In c (candidates "dev001" ["rec/dev001_1.csv"; "rec/dev001.csv"]) ->
              (name_len csv_path <= name_len c)%nat.
Proof.
  split; [reflexivity|].
  apply (C5_shortest_name_wins dev001_walk ["rec/dev001_info.json"]
           ["rec/dev001_1.csv"; "rec/dev001.csv"]
           "rec/dev001_info.json" "dev001").
  - reflexivity.
  - left. reflexivity.
  - reflexivity.
  - vm_compute. lia.
Defined.

(** ** The conversion handler *)

Lemma convert_sessions_first_failure (H : host) (fs : files) (s : session)
    (e : exn) (post : list session) : forall (pre : list session) (out : tree),
  (forall s', In s' pre -> session_succeeds H fs s') ->
  session_fails H fs s e ->
  convert_sessions H fs (pre ++ s :: post) out = Raise e.
Proof.
  induction pre as [|p pre IH]; simpl; intros out Hpre Hs.
  - rewrite Hs. reflexivity.
  - destruct (Hpre p (or_introl eq_refl) out) as [out' ->]. simpl.
    apply IH; auto.
Qed.

Lemma convert_sessions_some_failure (H : host) (fs : files) (s : session) :
  forall (sessions : list session) (out : tree),
  In s sessions ->
  (forall out', is_ok (convert_session H fs s out') = false) ->
  exists e, convert_sessions H fs sessions out = Raise e.
Proof.
  induction sessions as [|p rest IH]; simpl; intros out Hin Hs; [destruct Hin|].
  destruct (convert_session H fs p out) as [out'|e] eqn:Hp; simpl.
  - destruct Hin as [->|Hin].
    + specialize (Hs out). rewrite Hp in Hs. discriminate.
    + apply IH; auto.
  - eauto.
Qed.

Lemma convert_failed (H : host) (walk : list (string * list string))
    (fs : files) (e : exn) :
  find_emotibit_sessions walk <> [] ->
  convert_sessions H fs (find_emotibit_sessions walk) [] = Raise e ->
  convert H walk fs = Failed e.
Proof.
  unfold convert. intros Hne He.
  destruct (find_emotibit_sessions walk) as [|s rest]; [congruence|].
  rewrite He. reflexivity.
Qed.

(** The scenario from the archive to the download: one session, whose folder
    holds the README, the wide table and the metadata index. *)
Lemma scenario_converts :
  convert example_host accel_walk accel_files = Converted accel_folder 1.
Proof. vm_compute. reflexivity. Qed.

(** C4, as the code has it: the sessions are converted in one [try]. When a
    session fails after the sessions before it succeeded, the handler
    reports that failure and builds no archive, whatever the sessions after
    it are. *)
Theorem C4_failure_aborts_batch (H : host) (walk : list (string * list string))
    (fs : files) (pre post : list session) (s : session) (e : exn) :
  find_emotibit_sessions walk = (pre ++ s :: post)%list ->
  (forall s', In s' pre -> session_succeeds H fs s') ->
  session_fails H fs s e ->
  convert H walk fs = Failed e.
Proof.
  intros Hw Hpre Hs. apply convert_failed.
  - rewrite Hw. destruct pre; discriminate.
  - rewrite Hw. apply convert_sessions_first_failure; assumption.
Qed.

Lemma C4_failure_aborts_batch_witness :
  convert example_host two_sessions_walk two_sessions_files = Failed ValueError.
Proof.
  apply (C4_failure_aborts_batch example_host two_sessions_walk
           two_sessions_files [] [session_b] session_a ValueError).
  - reflexivity.
  - intros s' [].
  - intros out. reflexivity.
Defined.

(** C4 as stated fails: of two sessions the first has an empty metadata
    document and the second converts on its own, yet the run ends in the
    error and no archive holds a folder for the second. *)
Lemma C4_batch_continues_counterexample :
  find_emotibit_sessions two_sessions_walk = [session_a; session_b] /\
  session_fails example_host two_sessions_files session_a ValueError /\
  (exists archive,
     convert example_host only_b_walk two_sessions_files
     = Converted archive 1) /\
  ~ (exists archive n,
       convert example_host two_sessions_walk two_sessions_files
       = Converted archive n).
Proof.
  split; [reflexivity|]. split; [intros out; reflexivity|]. split.
  - eexists. vm_compute. reflexivity.
  - intros (archive & n & Hc). vm_compute in Hc. discriminate.
Qed.

(** C6: an empty metadata document (one Python counts as false, such as an
    empty array) makes the parser raise its error, a ValueError, and a run
    whose sessions include that document ends in an error, with no archive. *)
Theorem C6_empty_metadata_aborts (H : host)
    (walk : list (string * list string)) (fs : files) (s : session)
    (data : json) :
  In s (find_emotibit_sessions walk) ->
  json_load fs (sess_json s) = Ok data ->
  truthy data = false ->
  load_emotibit_json H fs (sess_json s) = Raise ValueError /\
  load_document H (JArr []) = Raise ValueError /\
  exists e, convert H walk fs = Failed e.
Proof.
  intros Hin Hload Hempty.
  assert (Hraise : load_emotibit_json H fs (sess_json s) = Raise ValueError).
  { unfold load_emotibit_json. rewrite Hload. simpl.
    now apply load_document_empty. }
  split; [exact Hraise|]. split; [reflexivity|].
  destruct (convert_sessions_some_failure H fs s
              (find_emotibit_sessions walk) [] Hin) as [e He].
  - intros out'. unfold convert_session. rewrite Hraise. reflexivity.
  - exists e. apply convert_failed; [|exact He].
    intros Hnil. rewrite Hnil in Hin. destruct Hin.
Qed.

Lemma C6_empty_metadata_aborts_witness :
  load_emotibit_json example_host two_sessions_files "rec/a_info.json"
    = Raise ValueError /\
  load_document example_host (JArr []) = Raise ValueError /\
  exists e, convert example_host two_sessions_walk two_sessions_files
            = Failed e.
Proof.
  apply (C6_empty_metadata_aborts example_host two_sessions_walk
           two_sessions_files session_a (JArr [])).
  - left. reflexivity.
  - reflexivity.
  - reflexivity.
Defined.

(** * Further properties of the code *)

(** ** The metadata parser *)

Lemma py_get_ok (o : json) (k : string) (default v : json) :
  py_get o k default = Ok v ->
  exists kv, o = JObj kv /\
    v = match dict_get k kv with Some x => x | None => default end.
Proof.
  destruct o; simpl; try discriminate. intros [= <-]. eauto.
Qed.

Lemma truthy_py_or (a b : json) :
  truthy b = true -> truthy (py_or a b) = true.
Proof.
  unfold py_or. destruct (truthy a) eqn:Ha; auto.
Qed.

Lemma replace_nonempty (s : string) :
  s <> "" -> replace " " "_" s <> "".
Proof.
  destruct s as [|c s]; [congruence|]. intros _. simpl.
  destruct (Ascii.eqb c " "); discriminate.
Qed.

(** How [load_document] ends well. *)
Lemma load_document_ok (H : host) (data : json) (device_meta : dict json)
    (channels : dict channel) :
  load_document H data = Ok (device_meta, channels) ->
  exists first rest kv device_id,
    data = JArr (first :: rest) /\
    py_get first "info" (JObj []) = Ok (JObj kv) /\
    truthy device_id = true /\
    device_meta
    = dict_set "__device_id__" device_id
        (dict_set "__device_name__"
           (py_or (get_or_null kv "name")
              (py_or (get_or_null kv "source_id")
                 (py_or (get_or_null kv "type") (JStr "UnknownDevice"))))
           kv) /\
    register_streams H rest [] = Ok channels.
Proof.
  unfold load_document. destruct (negb (truthy data)); [discriminate|].
  destruct data as [| | | | |[|first rest]|]; try discriminate.
  intros Hd. inv_bind Hd. inv_bind Hd.
  destruct (py_get_ok _ _ _ _ Ha0) as (kv & -> & ->).
  cbn [py_get bind] in Hd.
  change (match dict_get "name" kv with Some v => v | None => JNull end)
    with (get_or_null kv "name") in Hd.
  change (match dict_get "source_id" kv with Some v => v | None => JNull end)
    with (get_or_null kv "source_id") in Hd.
  change (match dict_get "type" kv with Some v => v | None => JNull end)
    with (get_or_null kv "type") in Hd.
  change (match dict_get "device_id" kv with Some v => v | None => JNull end)
    with (get_or_null kv "device_id") in Hd.
  inv_bind Hd. inv_bind Hd. injection Hd as <- <-.
  exists first, rest, kv, a.
  repeat split; auto.
  destruct (truthy (get_or_null kv "device_id")) eqn:Hd1;
    [injection Ha1 as <-; exact Hd1|].
  destruct (truthy (get_or_null kv "source_id")) eqn:Hd2;
    [injection Ha1 as <-; exact Hd2|].
  match type of Ha1 with
  | match ?n with _ => _ end = _ => destruct n as [| | | |s| |] eqn:Hn;
      try discriminate
  end.
  injection Ha1 as <-. simpl.
  assert (Ht : truthy (JStr s) = true).
  { rewrite <- Hn. repeat apply truthy_py_or. reflexivity. }
  simpl in Ht. apply negb_true_iff in Ht.
  apply String.eqb_neq in Ht. apply negb_true_iff.
  apply String.eqb_neq. now apply replace_nonempty.
Qed.

Lemma register_stream_object (H : host) (e : json) (init c : dict channel) :
  register_stream H e init = Ok c -> is_object e.
Proof.
  unfold register_stream. intros Hc. inv_bind Hc.
  destruct (py_get_ok _ _ _ _ Ha) as (kv & -> & _). now exists kv.
Qed.

Lemma register_streams_objects (H : host) : forall entries init c,
  register_streams H entries init = Ok c -> Forall is_object entries.
Proof.
  induction entries as [|e rest IH]; simpl; intros init c Hc.
  - constructor.
  - inv_bind Hc. constructor.
    + eapply register_stream_object; eauto.
    + eapply IH; eauto.
Qed.

(** The parser returns only for a document that is an array of objects with
    at least the device record: an object, a text or a number at the top
    level, or a record that is not an object, makes it raise. *)
Theorem load_document_accepts_arrays_of_objects (H : host) (data : json)
    (device_meta : dict json) (channels : dict channel) :
  load_document H data = Ok (device_meta, channels) ->
  exists first rest,
    data = JArr (first :: rest) /\ Forall is_object (first :: rest).
Proof.
  intros Hd.
  destruct (load_document_ok _ _ _ _ Hd)
    as (first & rest & kv & did & -> & Hinfo & _ & _ & Hreg).
  exists first, rest. split; [reflexivity|]. constructor.
  - destruct (py_get_ok _ _ _ _ Hinfo) as (fkv & -> & _). now exists fkv.
  - eapply register_streams_objects; eauto.
Qed.

Lemma load_document_accepts_arrays_of_objects_witness :
  exists first rest,
    numbered_doc = JArr (first :: rest) /\ Forall is_object (first :: rest).
Proof.
  apply (load_document_accepts_arrays_of_objects example_host numbered_doc
           numbered_meta numbered_channels).
  vm_compute. reflexivity.
Defined.

(** The device descriptor always holds the two derived fields, and neither is
    empty, null or zero: the name falls back on "UnknownDevice", the
    identifier on the name. *)
Theorem derived_fields_present (H : host) (data : json)
    (device_meta : dict json) (channels : dict channel) :
  load_document H data = Ok (device_meta, channels) ->
  exists device_name device_id,
    dict_get "__device_name__" device_meta = Some device_name /\
    truthy device_name = true /\
    dict_get "__device_id__" device_meta = Some device_id /\
    truthy device_id = true.
Proof.
  intros Hd.
  destruct (load_document_ok _ _ _ _ Hd)
    as (first & rest & kv & did & _ & _ & Hdid & -> & _).
  eexists. exists did. repeat split.
  - rewrite dict_get_set. change (String.eqb "__device_name__" "__device_id__")
      with false. cbv iota. apply dict_get_set_same.
  - repeat apply truthy_py_or. reflexivity.
  - apply dict_get_set_same.
  - exact Hdid.
Qed.

Lemma derived_fields_present_witness :
  exists device_name device_id,
    dict_get "__device_name__" numbered_meta = Some device_name /\
    truthy device_name = true /\
    dict_get "__device_id__" numbered_meta = Some device_id /\
    truthy device_id = true.
Proof.
  apply (derived_fields_present example_host numbered_doc numbered_meta
           numbered_channels).
  vm_compute. reflexivity.
Defined.

(** Every field of the device record's "info" is kept as it is in the device
    descriptor: only the two derived keys are written. *)
Theorem device_info_preserved (H : host) (first : json) (rest : list json)
    (kv : dict json) (device_meta : dict json) (channels : dict channel)
    (k : string) :
  load_document H (JArr (first :: rest)) = Ok (device_meta, channels) ->
  py_get first "info" (JObj []) = Ok (JObj kv) ->
  k <> "__device_name__" -> k <> "__device_id__" ->
  dict_get k device_meta = dict_get k kv.
Proof.
  intros Hd Hinfo Hn Hi.
  destruct (load_document_ok _ _ _ _ Hd)
    as (first' & rest' & kv' & did & Heq & Hinfo' & _ & -> & _).
  injection Heq as <- <-. rewrite Hinfo in Hinfo'. injection Hinfo' as <-.
  rewrite !dict_get_set.
  apply String.eqb_neq in Hn, Hi. rewrite Hn, Hi. reflexivity.
Qed.

Lemma device_info_preserved_witness :
  dict_get "firmware" numbered_meta
  = dict_get "firmware" [("source_id", JStr "Emoti Bit 7");
                         ("firmware", JInt 3)].
Proof.
  apply (device_info_preserved example_host
           (JObj [("info", JObj [("source_id", JStr "Emoti Bit 7");
                                 ("firmware", JInt 3)])])
           (match numbered_doc with JArr (_ :: rest) => rest | _ => [] end)
           _ numbered_meta numbered_channels "firmware").
  - vm_compute. reflexivity.
  - reflexivity.
  - discriminate.
  - discriminate.
Defined.

Lemma register_tags_get (H : host) (name sr units info : json)
    (tg : string) : forall (tags : list json) (init c : dict channel),
  register_tags H name sr units info tags init = Ok c ->
  dict_get tg c
  = if existsb (is_tag tg) tags
    then Some {| label := name_tag H name tg; nominal_srate := sr;
                 units := units; raw_info := info |}
    else dict_get tg init.
Proof.
  induction tags as [|t tags IH]; simpl; intros init c Hc.
  - injection Hc as <-. reflexivity.
  - destruct t as [| | | |s| |]; try discriminate;
      try (now apply IH).
    apply IH in Hc. rewrite Hc. cbn [is_tag].
    destruct (existsb (is_tag tg) tags); [now rewrite orb_true_r|].
    rewrite orb_false_r, dict_get_set, (String.eqb_sym s tg).
    destruct (String.eqb_spec tg s) as [->|Hne]; reflexivity.
Qed.

Lemma register_stream_get (H : host) (e : json) (tg : string)
    (init c : dict channel) :
  register_stream H e init = Ok c ->
  dict_get tg c
  = if existsb (is_tag tg) (stream_tags e) then descriptor H e tg
    else dict_get tg init.
Proof.
  unfold register_stream, stream_tags, descriptor, stream_name. intros Hc.
  inv_bind Hc. rewrite Ha.
  inv_bind Hc. rewrite Ha0.
  inv_bind Hc. rewrite Ha1.
  inv_bind Hc. rewrite Ha2.
  inv_bind Hc. rewrite Ha3.
  inv_bind Hc. rewrite Ha4.
  inv_bind Hc. rewrite Ha5.
  apply (register_tags_get _ _ _ _ _ tg) in Hc. exact Hc.
Qed.

Lemma register_streams_get (H : host) (tg : string) :
  forall (entries : list json) (init c : dict channel),
  register_streams H entries init = Ok c ->
  dict_get tg c
  = match last_listing entries tg with
    | Some e => descriptor H e tg
    | None => dict_get tg init
    end.
Proof.
  induction entries as [|e rest IH]; simpl; intros init c Hc.
  - injection Hc as <-. reflexivity.
  - inv_bind Hc. apply IH in Hc. rewrite Hc.
    destruct (last_listing rest tg); [reflexivity|].
    rewrite (register_stream_get _ _ tg _ _ Ha).
    destruct (existsb (is_tag tg) (stream_tags e)); reflexivity.
Qed.

Lemma descriptor_some (H : host) (e : json) (tg : string)
    (init c : dict channel) :
  register_stream H e init = Ok c -> exists ch, descriptor H e tg = Some ch.
Proof.
  unfold register_stream, descriptor, stream_name. intros Hc.
  inv_bind Hc. rewrite Ha.
  inv_bind Hc. rewrite Ha0.
  inv_bind Hc. rewrite Ha1.
  inv_bind Hc.
  inv_bind Hc. rewrite Ha3.
  inv_bind Hc. rewrite Ha4.
  eauto.
Qed.

Lemma last_listing_described (H : host) (tg : string) (e : json) :
  forall (entries : list json) (init c : dict channel),
  register_streams H entries init = Ok c ->
  last_listing entries tg = Some e ->
  exists ch, descriptor H e tg = Some ch.
Proof.
  induction entries as [|e' rest IH]; simpl; intros init c Hc Hl.
  - discriminate.
  - inv_bind Hc. destruct (last_listing rest tg) as [e''|] eqn:Hr.
    + injection Hl as <-. eapply IH; eauto.
    + destruct (existsb (is_tag tg) (stream_tags e')); [|discriminate].
      injection Hl as <-. eapply descriptor_some; eauto.
Qed.

Lemma last_listing_none (tg : string) : forall entries : list json,
  last_listing entries tg = None <->
  Forall (fun e => existsb (is_tag tg) (stream_tags e) = false) entries.
Proof.
  induction entries as [|e rest IH]; simpl.
  - split; [constructor | reflexivity].
  - destruct (last_listing rest tg) as [e'|].
    + split; [discriminate|]. intros Hf. inversion Hf; subst.
      now apply IH.
    + destruct (existsb (is_tag tg) (stream_tags e)) eqn:He.
      * split; [discriminate|]. intros Hf. inversion Hf; congruence.
      * split; [|reflexivity]. intros _. constructor; [assumption|].
        now apply IH.
Qed.

(** A tag is a key of the channel mapping exactly when a stream record lists
    it, and its descriptor (label, nominal rate, units, raw info) is the one
    of the last stream record that lists it: a later record overwrites an
    earlier one. *)
Theorem last_stream_registers_tag (H : host) (data : json)
    (device_meta : dict json) (channels : dict channel) (tg : string) :
  load_document H data = Ok (device_meta, channels) ->
  (dict_get tg channels = None <->
   Forall (fun e => existsb (is_tag tg) (stream_tags e) = false)
          (streams data)) /\
  match last_listing (streams data) tg with
  | Some e =>
      exists ch, descriptor H e tg = Some ch /\ dict_get tg channels = Some ch
  | None => dict_get tg channels = None
  end.
Proof.
  intros Hd. pose proof (load_document_streams _ _ _ _ Hd) as Hs.
  pose proof (register_streams_get H tg _ _ _ Hs) as Hg.
  pose proof (last_listing_described H tg) as Hdesc.
  specialize (fun e => Hdesc e _ _ _ Hs).
  rewrite <- last_listing_none.
  destruct (last_listing (streams data) tg) as [e|].
  - destruct (Hdesc e eq_refl) as [ch Hch]. rewrite Hch in Hg. split.
    + rewrite Hg. split; discriminate.
    + eauto.
  - simpl in Hg. split; [tauto | assumption].
Qed.

Lemma last_stream_registers_tag_witness :
  (dict_get "AA" numbered_channels = None <->
   Forall (fun e => existsb (is_tag "AA") (stream_tags e) = false)
          (streams numbered_doc)) /\
  exists ch,
    descriptor example_host
      (JObj [("info", JObj [("type", JStr "Acc");
                            ("typeTags", JArr [JStr "AA"; JStr "AX"]);
                            ("nominal_srate", JFloat 50);
                            ("units", JStr "g")])]) "AA" = Some ch /\
    dict_get "AA" numbered_channels = Some ch.
Proof.
  exact (last_stream_registers_tag example_host numbered_doc numbered_meta
           numbered_channels "AA" eq_refl).
Defined.

(** ** The reshaper *)

(** A line adds no Long Record and raises nothing when it has fewer than 7
    fields, when its first field is not an integer, or when its tag is not
    registered. *)
Theorem malformed_line_skipped (H : host) (base_dt : option (datetime H))
    (channels : dict channel) (line : string) :
  (List.length (fields line) < 7)%nat \/
  is_ok (int_of_str (nth 0 (fields line) "")) = false \/
  dict_get (nth 3 (fields line) "") channels = None ->
  parse_line H base_dt channels line = Ok [].
Proof.
  unfold parse_line, fields. intros Hskip.
  destruct (String.eqb (strip line) ""); [reflexivity|].
  set (parts := map strip (split "," (strip line))) in *.
  destruct (Nat.ltb_spec (List.length parts) 7) as [Hlt|Hge]; [reflexivity|].
  destruct (int_of_str (nth 0 parts "")) as [ms|e] eqn:Hms; [|reflexivity].
  destruct (dict_get (nth 3 parts "") channels) as [ch|] eqn:Hch;
    [|reflexivity].
  destruct Hskip as [Hl|[Hi|Ht]]; [lia | discriminate | discriminate].
Qed.

Lemma malformed_line_skipped_witness :
  parse_line example_host None accel_channels six_field_line = Ok [].
Proof.
  apply (malformed_line_skipped example_host None accel_channels
           six_field_line).
  left. vm_compute. lia.
Defined.

Lemma records_within_declared_count_witness :
  Z.of_nat (List.length accel_records) <= 2 /\
  forall r, In r accel_records ->
    exists i, Z.of_nat i < 2 /\
      float_of_str (nth (6 + i) (fields five_values_line) "") = Ok (value r).
Proof.
  apply (records_within_declared_count example_host None accel_channels
           five_values_line accel_records).
  - vm_compute. reflexivity.
  - vm_compute. discriminate.
Defined.





Lemma in_str_In (x : string) (l : list string) :
  in_str x l = true <-> In x l.
Proof.
  unfold in_str. rewrite existsb_exists. split.
  - intros (y & Hy & He). apply String.eqb_eq in He. now subst.
  - intros Hx. exists x. split; [assumption | apply String.eqb_refl].
Qed.

Lemma pivot_tag_registered (H : host) (lines : list string) (created : json)
    (channels : dict channel) (records : list record) (tg : string) :
  long_records H lines created channels = Ok records ->
  In tg (pivot_tags records) ->
  exists ch, dict_get tg channels = Some ch.
Proof.
  intros Hrecs Hin. apply pivot_tags_In in Hin.
  destruct Hin as (r & Hr & <- & _).
  eapply long_records_registered; eauto.
Qed.

(** When no channel is registered under the names "timestamp" and "Time", a
    wide table with rows starts with the columns "timestamp" and "Time", the
    "Time" column starts at 0.0, and every further column is headed by the
    label of a registered channel. *)
Theorem wide_table_layout (H : host) (fs : files) (csv_path : string)
    (created : json) (channels : dict channel) (df : DataFrame) :
  parse_emotibit_csv H fs csv_path created channels = Ok df ->
  nrows df <> O ->
  dict_get "timestamp" channels = None ->
  dict_get "Time" channels = None ->
  exists first_ts rest times cols,
    df = ("timestamp", IntCol (first_ts :: rest))
         :: ("Time", FloatCol (0%float :: times))
         :: cols /\
    Forall (fun hc => exists tg ch,
              dict_get tg channels = Some ch /\ fst hc = label ch) cols.
Proof.
  intros Hdf Hrows Hts Htime.
  destruct (parse_emotibit_csv_ok _ _ _ _ _ _ Hdf)
    as (lines & records & _ & Hrecs & Hwide).
  destruct (wide_table_ok _ _ _ Hwide)
    as [[_ ->]|(first_ts & rest & Hidx & ->)]; [now elim Hrows|].
  rewrite Hidx. unfold rename. cbn [map fst snd time_column].
  rewrite Hts, Htime. rewrite Z.sub_diag.
  change (PrimFloat.div (nearest_float 0) 1000) with 0%float.
  eexists. eexists. eexists. eexists. split; [reflexivity|].
  rewrite pivot_columns, !map_map, Forall_map. apply Forall_forall.
  intros tg Htg. cbn [fst snd].
  destruct (pivot_tag_registered _ _ _ _ _ _ Hrecs Htg) as [ch Hch].
  exists tg, ch. rewrite Hch. auto.
Qed.

Lemma wide_table_layout_witness :
  exists first_ts rest times cols,
    two_stream_table
    = ("timestamp", IntCol (first_ts :: rest))
      :: ("Time", FloatCol (0%float :: times))
      :: cols /\
    Forall (fun hc => exists tg ch,
              dict_get tg two_stream_channels = Some ch /\
              fst hc = label ch) cols.
Proof.
  apply (wide_table_layout example_host two_stream_files "dev001.csv"
           JNull two_stream_channels two_stream_table).
  - vm_compute. reflexivity.
  - discriminate.
  - reflexivity.
  - reflexivity.
Defined.

(** A tag named "timestamp" or "Time" cannot be laid out: once a sample of
    it averages to a number, [reset_index] or [insert] finds the column taken
    and the reshaper raises ValueError. *)
Theorem reserved_tag_raises (channels : dict channel) (records : list record)
    (ts : Z) (tg : string) :
  tg = "timestamp" \/ tg = "Time" ->
  numeric_group records ts tg ->
  wide_table channels records = Raise ValueError.
Proof.
  intros Htg Hnum.
  destruct (numeric_group_record _ _ _ Hnum) as (r & Hr & Hts & Hrt).
  assert (Hin : In tg (pivot_tags records)).
  { apply pivot_tags_In. exists r. subst ts. auto. }
  assert (Hidx : In ts (fst (pivot_table records))).
  { apply pivot_index_In. exists r. subst tg. auto. }
  unfold wide_table. destruct records as [|r0 rs]; [destruct Hr|].
  unfold pivot_tags in Hin.
  destruct (pivot_table (r0 :: rs)) as [index cols]. cbn [fst snd] in *.
  destruct (in_str "timestamp" (map fst cols)) eqn:Hstamp; [reflexivity|].
  destruct index as [|first_ts rest]; [destruct Hidx|].
  destruct Htg as [->| ->].
  - apply in_str_In in Hin. congruence.
  - apply in_str_In in Hin. rewrite Hin. reflexivity.
Qed.

Lemma reserved_tag_raises_witness :
  wide_table time_tag_channels time_tag_records = Raise ValueError.
Proof.
  apply (reserved_tag_raises time_tag_channels time_tag_records 1000 "Time").
  - right. reflexivity.
  - vm_compute. reflexivity.
Defined.

Lemma filter_none {A : Type} (f : A -> bool) (l : list A) :
  (forall x, In x l -> f x = false) -> filter f l = [].
Proof.
  induction l as [|x l IH]; simpl; intros Hf; [reflexivity|].
  rewrite (Hf x (or_introl eq_refl)). apply IH. auto.
Qed.

(** Long Records whose values all read "nan" are not treated as an empty
    file: the pivot drops every group, no row is left, and the reshaper
    raises where it reads the first timestamp; it returns no table. *)
Theorem all_nan_records_give_no_table (channels : dict channel)
    (records : list record) (df : DataFrame) :
  records <> [] ->
  (forall r, In r records -> is_nan (value r) = true) ->
  wide_table channels records <> Ok df.
Proof.
  intros Hne Hnan.
  assert (Hnone : forall ts tg, pd_mean (group_values records ts tg) = nan).
  { intros ts tg. unfold pd_mean, group_values.
    rewrite filter_none; [reflexivity|].
    intros v Hv. apply in_map_iff in Hv. destruct Hv as (r & <- & Hr).
    apply filter_In in Hr. unfold not_nan.
    rewrite (Hnan r (proj1 Hr)). reflexivity. }
  assert (Hkept :
            filter (fun r => not_nan (pd_mean (group_values records
                                                 (timestamp r) (tag r))))
                   records = []).
  { apply filter_none. intros r _. rewrite Hnone. reflexivity. }
  unfold wide_table. destruct records as [|r0 rs]; [congruence|].
  unfold pivot_table. rewrite Hkept. discriminate.
Qed.

Lemma all_nan_records_give_no_table_witness :
  wide_table accel_channels all_nan_records <> Ok empty_table.
Proof.
  apply (all_nan_records_give_no_table accel_channels all_nan_records
           empty_table).
  - discriminate.
  - intros r [<-|[<-|[]]]; reflexivity.
Defined.

(** ** The writer *)

Lemma string_app_assoc (a b c : string) : (a ++ b) ++ c = a ++ (b ++ c).
Proof. induction a as [|x a IH]; simpl; [reflexivity | now rewrite IH]. Qed.

Lemma list_ascii_app (a b : string) :
  list_ascii_of_string (a ++ b)
  = (list_ascii_of_string a ++ list_ascii_of_string b)%list.
Proof. induction a as [|x a IH]; simpl; [reflexivity | now rewrite IH]. Qed.

Lemma list_ascii_length (s : string) :
  List.length (list_ascii_of_string s) = String.length s.
Proof. induction s as [|x s IH]; simpl; [reflexivity | now rewrite IH]. Qed.

(** The last characters of a text are those of its end. *)
Lemma last5_app (pre f : string) :
  (5 <= String.length f)%nat -> last5 (pre ++ f) = last5 f.
Proof.
  intros Hf. unfold last5. rewrite list_ascii_app, rev_app_distr, firstn_app.
  rewrite length_rev, list_ascii_length.
  replace (5 - String.length f)%nat with O by lia.
  simpl firstn at 2. apply app_nil_r.
Qed.

Lemma path_join_suffix (a b : string) : exists pre, path_join a b = pre ++ b.
Proof.
  unfold path_join. destruct (startswith "/" b).
  - now exists "".
  - destruct (String.eqb a "" || endswith "/" a).
    + now exists a.
    + exists (a ++ "/"). now rewrite string_app_assoc.
Qed.

Lemma last5_path_join (a b : string) :
  (5 <= String.length b)%nat -> last5 (path_join a b) = last5 b.
Proof.
  intros Hb. destruct (path_join_suffix a b) as [pre ->].
  now apply last5_app.
Qed.

Lemma last5_device_csv (a id : string) :
  last5 (path_join a (device_csv_name id)) = last5 "_device.csv".
Proof.
  unfold device_csv_name. destruct (path_join_suffix a
    (replace " " "_" (lower id) ++ "_device.csv")) as [pre ->].
  rewrite <- string_app_assoc. apply last5_app. simpl. lia.
Qed.

(** The three files of a folder have three different paths. *)
Lemma folder_paths_differ (a b id : string) :
  path_join a "README.txt" <> path_join b (device_csv_name id) /\
  path_join a "README.txt" <> path_join b "metadata.csv" /\
  path_join a (device_csv_name id) <> path_join b "metadata.csv".
Proof.
  repeat split; intros Heq; apply (f_equal last5) in Heq;
    rewrite ?last5_device_csv, ?last5_path_join in Heq
      by (simpl; lia); discriminate.
Qed.

Lemma write_yq_folder_ok (out : tree) (out_dir : string) (df : DataFrame)
    (device_meta : dict json) (out' : tree) :
  write_yq_folder out out_dir df device_meta = Ok out' ->
  exists id device_name guess,
    sampling_rate_guess df = Ok guess /\
    out' = dict_set (path_join out_dir "metadata.csv")
             (MetaIndex {| recording_id := id ++ " : device";
                           file_name := device_csv_name id;
                           device_id := id;
                           device_name := device_name;
                           type_ := "physio";
                           sampling_rate := guess |})
             (dict_set (path_join out_dir (device_csv_name id)) (Table df)
                (dict_set (path_join out_dir "README.txt")
                   (Text (readme_text (device_csv_name id))) out)).
Proof.
  unfold write_yq_folder, device_csv_name. intros Hw.
  destruct (match dict_get "__device_id__" device_meta with
            | Some v => v
            | None => _
            end) as [| | | |id| |]; try discriminate.
  inv_bind Hw. injection Hw as <-. eauto.
Qed.

(** [write_yq_folder] writes three files under [out_dir] — the README, the
    table under the name the metadata index records, and the index — and
    leaves every other file of the tree as it was. *)
Theorem folder_has_three_files (out : tree) (out_dir : string)
    (df : DataFrame) (device_meta : dict json) (out' : tree) :
  write_yq_folder out out_dir df device_meta = Ok out' ->
  exists row,
    dict_get (path_join out_dir "metadata.csv") out' = Some (MetaIndex row) /\
    dict_get (path_join out_dir (file_name row)) out' = Some (Table df) /\
    dict_get (path_join out_dir "README.txt") out'
    = Some (Text (readme_text (file_name row))) /\
    forall p,
      p <> path_join out_dir "README.txt" ->
      p <> path_join out_dir (file_name row) ->
      p <> path_join out_dir "metadata.csv" ->
      dict_get p out' = dict_get p out.
Proof.
  intros Hw.
  destruct (write_yq_folder_ok _ _ _ _ _ Hw)
    as (id & dname & guess & _ & ->).
  destruct (folder_paths_differ out_dir out_dir id) as (H1 & H2 & H3).
  apply String.eqb_neq in H1, H2, H3.
  eexists. split; [apply dict_get_set_same|]. cbn [file_name].
  repeat split.
  - rewrite dict_get_set, H3. apply dict_get_set_same.
  - rewrite !dict_get_set, H1, H2, String.eqb_refl. reflexivity.
  - intros p Hp1 Hp2 Hp3. rewrite !dict_get_set.
    apply String.eqb_neq in Hp1, Hp2, Hp3. rewrite Hp1, Hp2, Hp3.
    reflexivity.
Qed.

Lemma folder_has_three_files_witness :
  exists row,
    dict_get (path_join "dev001" "metadata.csv") accel_folder
    = Some (MetaIndex row) /\
    dict_get (path_join "dev001" (file_name row)) accel_folder
    = Some (Table accel_table) /\
    dict_get (path_join "dev001" "README.txt") accel_folder
    = Some (Text (readme_text (file_name row))) /\
    forall p,
      p <> path_join "dev001" "README.txt" ->
      p <> path_join "dev001" (file_name row) ->
      p <> path_join "dev001" "metadata.csv" ->
      dict_get p accel_folder = dict_get p [].
Proof.
  apply (folder_has_three_files [] "dev001" accel_table accel_meta
           accel_folder).
  vm_compute. reflexivity.
Defined.

(** A measurement file without a usable sample is no error for the
    reshaper: it returns the table with the lone column "timestamp" and no
    row. The sampling rate guessed for that table is 0, and whenever the
    writer returns on it the folder holds that table and an index whose
    sampling rate is 0. *)
Theorem empty_file_gives_empty_table (H : host) (fs : files)
    (csv_path : string) (created : json) (channels : dict channel)
    (lines : list string) :
  read_lines fs csv_path = Ok lines ->
  long_records H lines created channels = Ok [] ->
  parse_emotibit_csv H fs csv_path created channels = Ok empty_table /\
  sampling_rate_guess empty_table = Ok 0 /\
  forall (out : tree) (out_dir : string) (device_meta : dict json)
         (out' : tree),
    write_yq_folder out out_dir empty_table device_meta = Ok out' ->
    exists row,
      dict_get (path_join out_dir "metadata.csv") out'
      = Some (MetaIndex row) /\
      sampling_rate row = 0 /\
      dict_get (path_join out_dir (file_name row)) out'
      = Some (Table empty_table).
Proof.
  intros Hread Hrecs. split; [|split; [reflexivity|]].
  - unfold parse_emotibit_csv. unfold long_records in Hrecs.
    inv_bind Hrecs. rewrite Ha. cbn [bind]. rewrite Hread. cbn [bind].
    rewrite Hrecs. reflexivity.
  - intros out out_dir device_meta out' Hw.
    destruct (write_yq_folder_ok _ _ _ _ _ Hw)
      as (id & dname & guess & Hguess & ->).
    injection Hguess as <-.
    destruct (folder_paths_differ out_dir out_dir id) as (_ & _ & H3).
    apply String.eqb_neq in H3.
    eexists. split; [apply dict_get_set_same|]. cbn [file_name sampling_rate].
    split; [reflexivity|].
    rewrite dict_get_set, H3. apply dict_get_set_same.
Qed.

Lemma empty_file_gives_empty_table_witness :
  parse_emotibit_csv example_host unknown_tag_files "rec/dev001.csv" JNull
    accel_channels = Ok empty_table /\
  sampling_rate_guess empty_table = Ok 0 /\
  forall (out : tree) (out_dir : string) (device_meta : dict json)
         (out' : tree),
    write_yq_folder out out_dir empty_table device_meta = Ok out' ->
    exists row,
      dict_get (path_join out_dir "metadata.csv") out'
      = Some (MetaIndex row) /\
      sampling_rate row = 0 /\
      dict_get (path_join out_dir (file_name row)) out'
      = Some (Table empty_table).
Proof.
  apply (empty_file_gives_empty_table example_host unknown_tag_files
           "rec/dev001.csv" JNull accel_channels
           ["1000,x,1,ZZ,x,x,0.5"; ""; six_field_line]).
  - reflexivity.
  - vm_compute. reflexivity.
Defined.

Lemma lower_ascii_idem (c : ascii) :
  lower_ascii (lower_ascii c) = lower_ascii c.
Proof.
  destruct c as [[] [] [] [] [] [] [] []]; reflexivity.
Qed.

Lemma lower_ascii_space (c : ascii) :
  Ascii.eqb (lower_ascii c) " " = Ascii.eqb c " ".
Proof.
  destruct c as [[] [] [] [] [] [] [] []]; reflexivity.
Qed.

Lemma lower_app (a b : string) : lower (a ++ b) = lower a ++ lower b.
Proof. induction a as [|x a IH]; simpl; [reflexivity | now rewrite IH]. Qed.

(** The stub of the file name is in lower case already. *)
Lemma lower_stub (id : string) :
  lower (replace " " "_" (lower id)) = replace " " "_" (lower id).
Proof.
  induction id as [|c id IH]; simpl; [reflexivity|].
  destruct (Ascii.eqb (lower_ascii c) " "); simpl; rewrite IH.
  - reflexivity.
  - now rewrite lower_ascii_idem.
Qed.

Lemma find_space_cons (c : ascii) (s : string) :
  find " " (String c s)
  = if Ascii.eqb c " " then Some O else option_map S (find " " s).
Proof.
  cbn [find startswith]. rewrite Ascii.eqb_sym.
  destruct (Ascii.eqb c " "); reflexivity.
Qed.

Lemma no_space_app (a b : string) :
  contains " " a = false -> contains " " b = false ->
  contains " " (a ++ b) = false.
Proof.
  unfold contains. induction a as [|c a IH]; simpl append; [auto|].
  rewrite !find_space_cons. destruct (Ascii.eqb c " "); [discriminate|].
  intros Ha Hb.
  destruct (find " " a); [discriminate|].
  specialize (IH eq_refl Hb). destruct (find " " (a ++ b)); [discriminate|].
  reflexivity.
Qed.

Lemma no_space_stub (s : string) :
  contains " " (replace " " "_" s) = false.
Proof.
  unfold contains. induction s as [|c s IH]; [reflexivity|].
  cbn [replace]. destruct (Ascii.eqb c " ") eqn:Hc.
  - change ("_" ++ replace " " "_" s) with (String "_" (replace " " "_" s)).
    rewrite find_space_cons. change (Ascii.eqb "_" " ") with false.
    destruct (find " " (replace " " "_" s)); [discriminate | reflexivity].
  - rewrite find_space_cons, Hc.
    destruct (find " " (replace " " "_" s)); [discriminate | reflexivity].
Qed.

(** The name of the table file is the device identifier in lower case with
    every space turned into an underscore, followed by "_device.csv": it
    holds no space and no ASCII capital, whatever the identifier is. *)
Theorem table_file_name_sanitized (out : tree) (out_dir : string)
    (df : DataFrame) (device_meta : dict json) (out' : tree) :
  write_yq_folder out out_dir df device_meta = Ok out' ->
  exists row,
    dict_get (path_join out_dir "metadata.csv") out' = Some (MetaIndex row) /\
    file_name row = device_csv_name (device_id row) /\
    contains " " (file_name row) = false /\
    lower (file_name row) = file_name row.
Proof.
  intros Hw.
  destruct (write_yq_folder_ok _ _ _ _ _ Hw)
    as (id & dname & guess & _ & ->).
  eexists. split; [apply dict_get_set_same|]. cbn [file_name device_id].
  split; [reflexivity|]. unfold device_csv_name. split.
  - apply no_space_app; [apply no_space_stub | reflexivity].
  - rewrite lower_app, lower_stub. reflexivity.
Qed.

Lemma table_file_name_sanitized_witness :
  exists out' row,
    write_yq_folder [] "dev001" accel_table spaced_meta = Ok out' /\
    dict_get (path_join "dev001" "metadata.csv") out' = Some (MetaIndex row) /\
    file_name row = "emoti_bit_7_device.csv".
Proof.
  destruct (write_yq_folder [] "dev001" accel_table spaced_meta)
    as [out'|e] eqn:Hw; [|vm_compute in Hw; discriminate].
  destruct (table_file_name_sanitized _ _ _ _ _ Hw)
    as (row & Hget & Hname & _).
  exists out', row. split; [reflexivity|]. split; [exact Hget|].
  rewrite Hname. vm_compute in Hw. injection Hw as <-.
  vm_compute in Hget. injection Hget as <-. reflexivity.
Defined.

Lemma startswith_slash_stub (id : string) :
  startswith "/" id = true ->
  startswith "/" (device_csv_name id) = true.
Proof.
  destruct id as [|c id]; [discriminate|]. unfold device_csv_name.
  cbn [startswith lower]. rewrite andb_true_r. intros Hc.
  rewrite Ascii.eqb_sym in Hc. apply Ascii.eqb_eq in Hc. subst c.
  reflexivity.
Qed.

(** A device identifier that starts with "/" takes the table out of the
    session folder: [os.path.join] drops [out_dir] before an absolute name,
    and the table is written at that absolute path. *)
Theorem rooted_device_id_leaves_folder (out : tree) (out_dir : string)
    (df : DataFrame) (device_meta : dict json) (id : string) (out' : tree) :
  dict_get "__device_id__" device_meta = Some (JStr id) ->
  startswith "/" id = true ->
  write_yq_folder out out_dir df device_meta = Ok out' ->
  path_join out_dir (device_csv_name id) = device_csv_name id /\
  dict_get (device_csv_name id) out' = Some (Table df).
Proof.
  intros Hid Hroot Hw.
  assert (Hpath : path_join out_dir (device_csv_name id) = device_csv_name id).
  { unfold path_join. now rewrite (startswith_slash_stub _ Hroot). }
  split; [exact Hpath|].
  destruct (write_yq_folder_ok _ _ _ _ _ Hw)
    as (id' & dname & guess & _ & ->).
  assert (id' = id).
  { unfold write_yq_folder in Hw. rewrite Hid in Hw.
    inv_bind Hw. injection Hw as Hw.
    apply (f_equal (dict_get (path_join out_dir "metadata.csv"))) in Hw.
    rewrite !dict_get_set_same in Hw. now injection Hw. }
  subst id'. rewrite Hpath.
  destruct (folder_paths_differ out_dir out_dir id) as (_ & _ & H3).
  rewrite Hpath in H3. apply String.eqb_neq in H3.
  rewrite dict_get_set, H3. apply dict_get_set_same.
Qed.

Lemma rooted_device_id_leaves_folder_witness :
  exists out',
    write_yq_folder [] "dev001" accel_table rooted_meta = Ok out' /\
    path_join "dev001" (device_csv_name "/tmp/dev") = "/tmp/dev_device.csv" /\
    dict_get "/tmp/dev_device.csv" out' = Some (Table accel_table).
Proof.
  destruct (write_yq_folder [] "dev001" accel_table rooted_meta)
    as [out'|e] eqn:Hw; [|vm_compute in Hw; discriminate].
  exists out'. split; [reflexivity|].
  apply (rooted_device_id_leaves_folder [] "dev001" accel_table rooted_meta
           "/tmp/dev" out'); [reflexivity | reflexivity | exact Hw].
Defined.

Lemma round_half_even_nonneg (m : positive) (e : Z) :
  0 <= round_half_even m e.
Proof.
  unfold round_half_even. destruct e as [|p|p].
  - simpl. lia.
  - apply Z.shiftl_nonneg. lia.
  - assert (Hd : 0 < Z.pow_pos 2 p).
    { rewrite Z.pow_pos_fold. apply Z.pow_pos_nonneg; lia. }
    assert (Hq : 0 <= Zpos m / Z.pow_pos 2 p) by (apply Z.div_pos; lia).
    destruct (2 * (Zpos m mod Z.pow_pos 2 p) ?= Z.pow_pos 2 p);
      try lia.
    destruct (Z.even (Zpos m / Z.pow_pos 2 p)); lia.
Qed.

Lemma round_nonneg (x : float) (z : Z) :
  sf_nonneg (Prim2SF x) -> round x = Ok z -> 0 <= z.
Proof.
  unfold round. destruct (Prim2SF x) as [s|s| |s m e]; simpl;
    intros Hs Hz; try discriminate; injection Hz as <-; [lia|].
  subst s. apply round_half_even_nonneg.
Qed.

(** The sampling rate the writer guesses is never below zero. *)
Theorem sampling_rate_not_negative (df : DataFrame) (guess : Z) :
  sampling_rate_guess df = Ok guess -> 0 <= guess.
Proof.
  rewrite sampling_rate_guess_spec.
  destruct (dict_get "Time" df) as [time|]; [|intros [= <-]; lia].
  cbv zeta.
  destruct (2 <=? nrows df)%nat; [|intros [= <-]; lia]. cbn [andb].
  destruct (PrimFloat.ltb 0 _) eqn:Hpos; [|intros [= <-]; lia].
  apply round_nonneg. rewrite div_spec.
  apply SFdiv_nonneg; [vm_compute; reflexivity|].
  now apply ltb_zero_positive.
Qed.

Lemma sampling_rate_not_negative_witness :
  sampling_rate_guess accel_table = Ok 25 /\ 0 <= 25.
Proof.
  split; [vm_compute; reflexivity|].
  apply (sampling_rate_not_negative accel_table 25).
  vm_compute. reflexivity.
Defined.

(** ** The matcher *)

Lemma classify_files_cons (root f : string) (fnames : list string) :
  classify_files root (f :: fnames)
  = let acc := classify_files root fnames in
    if startswith "._" f then acc
    else if endswith ".json" (lower f) && contains "_info" (lower f)
         then (path_join root f :: fst acc, snd acc)
         else if endswith ".csv" (lower f)
              then (fst acc, path_join root f :: snd acc)
              else acc.
Proof. reflexivity. Qed.

Lemma classify_files_In (root : string) (fp : string) :
  forall fnames : list string,
  (In fp (fst (classify_files root fnames)) <->
   exists f, In f fnames /\ fp = path_join root f /\
     startswith "._" f = false /\
     endswith ".json" (lower f) && contains "_info" (lower f) = true) /\
  (In fp (snd (classify_files root fnames)) <->
   exists f, In f fnames /\ fp = path_join root f /\
     startswith "._" f = false /\
     endswith ".json" (lower f) && contains "_info" (lower f) = false /\
     endswith ".csv" (lower f) = true).
Proof.
  induction fnames as [|f fnames [IHj IHc]].
  - simpl.
    split; split; [tauto | intros (f & [] & _) | tauto | intros (f & [] & _)].
  - rewrite classify_files_cons. cbn [In].
    destruct (startswith "._" f) eqn:Hdot.
    { split.
      - rewrite IHj. split.
        + intros (g & Hg & Hrest). exists g. auto.
        + intros (g & [<-|Hg] & Hfp & Hd & Hrest); [congruence|]. eauto 10.
      - rewrite IHc. split.
        + intros (g & Hg & Hrest). exists g. auto.
        + intros (g & [<-|Hg] & Hfp & Hd & Hrest); [congruence|]. eauto 10. }
    destruct (endswith ".json" (lower f) && contains "_info" (lower f))
      eqn:Hjson; cbn [fst snd].
    { split.
      - simpl. rewrite IHj. split.
        + intros [<-|(g & Hg & Hrest)]; [exists f; auto|].
          exists g. auto.
        + intros (g & [<-|Hg] & Hfp & Hrest); [now left|]. right. eauto 10.
      - rewrite IHc. split.
        + intros (g & Hg & Hrest). exists g. auto.
        + intros (g & [<-|Hg] & Hfp & Hd & Hj & Hrest); [congruence|]. eauto 10. }
    destruct (endswith ".csv" (lower f)) eqn:Hcsv; cbn [fst snd].
    { split.
      - rewrite IHj. split.
        + intros (g & Hg & Hrest). exists g. auto.
        + intros (g & [<-|Hg] & Hfp & Hd & Hrest); [congruence|]. eauto 10.
      - simpl. rewrite IHc. split.
        + intros [<-|(g & Hg & Hrest)]; [exists f; auto|].
          exists g. auto.
        + intros (g & [<-|Hg] & Hfp & Hrest); [now left|]. right. eauto 10. }
    split.
    + rewrite IHj. split.
      * intros (g & Hg & Hrest). exists g. auto.
      * intros (g & [<-|Hg] & Hfp & Hd & Hrest); [congruence|]. eauto 10.
    + rewrite IHc. split.
      * intros (g & Hg & Hrest). exists g. auto.
      * intros (g & [<-|Hg] & Hfp & Hd & Hj & Hrest); [congruence|]. eauto 10.
Qed.

Lemma collect_In (fp : string) : forall walk : list (string * list string),
  (In fp (fst (collect walk)) ->
   exists root f, listed walk root f /\ fp = path_join root f /\
     endswith ".json" (lower f) = true /\
     contains "_info" (lower f) = true) /\
  (In fp (snd (collect walk)) ->
   exists root f, listed walk root f /\ fp = path_join root f /\
     endswith ".csv" (lower f) = true).
Proof.
  assert (Hmono : forall walk root fnames r f,
            listed walk r f -> listed ((root, fnames) :: walk) r f).
  { intros walk root fnames r f ((fs & Hw & Hf) & Hm & Hd).
    split; [|auto]. exists fs. split; [now right | assumption]. }
  induction walk as [|[root fnames] walk [IHj IHc]]; simpl.
  - split; intros [].
  - destruct (contains "__MACOSX" root) eqn:Hmac.
    + split; intros Hin.
      * destruct (IHj Hin) as (r & f & Hl & Hrest). exists r, f. auto.
      * destruct (IHc Hin) as (r & f & Hl & Hrest). exists r, f. auto.
    + cbn [fst snd]. split; intros Hin; apply in_app_or in Hin.
      * destruct Hin as [Hin|Hin].
        -- apply (proj1 (classify_files_In root fp fnames)) in Hin.
           destruct Hin as (f & Hf & Hfp & Hd & Hj).
           apply andb_true_iff in Hj. destruct Hj as [Hj1 Hj2].
           exists root, f. repeat split; auto.
           exists fnames. split; [now left | assumption].
        -- destruct (IHj Hin) as (r & f & Hl & Hrest). exists r, f. auto.
      * destruct Hin as [Hin|Hin].
        -- apply (proj2 (classify_files_In root fp fnames)) in Hin.
           destruct Hin as (f & Hf & Hfp & Hd & _ & Hc).
           exists root, f. repeat split; auto.
           exists fnames. split; [now left | assumption].
        -- destruct (IHc Hin) as (r & f & Hl & Hrest). exists r, f. auto.
Qed.

Lemma match_json_ok (all_csvs : list string) (j : string) (s : session) :
  match_json all_csvs j = Some s ->
  sess_json s = j /\
  base_key j = Some (sess_name s) /\
  In (sess_csv s) (candidates (sess_name s) all_csvs).
Proof.
  unfold match_json. destruct (base_key j) as [key|]; [|discriminate].
  pose proof (sort_by_len_head (candidates key all_csvs)) as Hhead.
  destruct (sort_by_len (candidates key all_csvs)) as [|c rest];
    [discriminate|].
  intros [= <-]. cbn. tauto.
Qed.

(** Every session is made of two files the walk lists outside the
    housekeeping of the platform (no "__MACOSX" directory, no "._" file): a
    ".json" file whose name holds "_info" and a ".csv" file. The session is
    named by the metadata file's stem up to "_info", and the stem of the
    measurement file starts with that name. *)
Theorem session_files_come_from_walk (walk : list (string * list string))
    (s : session) :
  In s (find_emotibit_sessions walk) ->
  (exists root f, listed walk root f /\ sess_json s = path_join root f /\
     endswith ".json" (lower f) = true /\
     contains "_info" (lower f) = true) /\
  (exists root f, listed walk root f /\ sess_csv s = path_join root f /\
     endswith ".csv" (lower f) = true) /\
  base_key (sess_json s) = Some (sess_name s) /\
  startswith (sess_name s) (splitext_root (basename (sess_csv s))) = true.
Proof.
  unfold find_emotibit_sessions.
  destruct (collect walk) as [all_jsons all_csvs] eqn:Hw. intros Hs.
  apply sessions_of_In in Hs. destruct Hs as (j & Hj & Hm).
  destruct (match_json_ok _ _ _ Hm) as (Hsj & Hkey & Hc).
  unfold candidates in Hc. apply filter_In in Hc. destruct Hc as [Hc Hstart].
  pose proof (collect_In (sess_json s) walk) as [Hcj _].
  pose proof (collect_In (sess_csv s) walk) as [_ Hcc].
  rewrite Hw in Hcj, Hcc. cbn [fst snd] in Hcj, Hcc.
  subst j. repeat split; auto.
Qed.

Lemma session_files_come_from_walk_witness :
  find_emotibit_sessions cluttered_walk
  = [ {| sess_json := "rec/dev001_info.json";
         sess_csv := "rec/dev001b.csv"; sess_name := "dev001" |} ] /\
  (exists root f, listed cluttered_walk root f /\
     "rec/dev001_info.json" = path_join root f /\
     endswith ".json" (lower f) = true /\
     contains "_info" (lower f) = true) /\
  (exists root f, listed cluttered_walk root f /\
     "rec/dev001b.csv" = path_join root f /\
     endswith ".csv" (lower f) = true) /\
  base_key "rec/dev001_info.json" = Some "dev001" /\
  startswith "dev001" (splitext_root (basename "rec/dev001b.csv")) = true.
Proof.
  split; [reflexivity|].
  apply (session_files_come_from_walk cluttered_walk
           {| sess_json := "rec/dev001_info.json";
              sess_csv := "rec/dev001b.csv"; sess_name := "dev001" |}).
  left. reflexivity.
Defined.

Lemma sort_by_len_first_shortest (c : string) (post : list string) :
  (forall q, In q post -> (name_len c <= name_len q)%nat) ->
  forall pre : list string,
  (forall p, In p pre -> (name_len c < name_len p)%nat) ->
  exists rest, sort_by_len (pre ++ c :: post) = c :: rest.
Proof.
  intros Hpost. induction pre as [|p pre IH]; intros Hpre; simpl.
  - pose proof (sort_by_len_head post) as Hhead.
    destruct (sort_by_len post) as [|q rest]; simpl; [eauto|].
    destruct Hhead as [Hq _]. specialize (Hpost q Hq).
    destruct (Nat.leb_spec (name_len c) (name_len q)); [eauto | lia].
  - destruct IH as [rest ->]; [intros q Hq; apply Hpre; now right|].
    simpl. specialize (Hpre p (or_introl eq_refl)).
    destruct (Nat.leb_spec (name_len p) (name_len c)); [lia | eauto].
Qed.

(** Among the measurement files that match a metadata file, the one taken is
    the first in the order of the walk whose name is of least length: the
    sort is stable, so a tie goes to the file met first. *)
Theorem tie_goes_to_first_listed (all_csvs : list string)
    (json_path key c : string) (pre post : list string) :
  base_key json_path = Some key ->
  candidates key all_csvs = (pre ++ c :: post)%list ->
  (forall p, In p pre -> (name_len c < name_len p)%nat) ->
  (forall q, In q post -> (name_len c <= name_len q)%nat) ->
  match_json all_csvs json_path
  = Some {| sess_json := json_path; sess_csv := c; sess_name := key |}.
Proof.
  intros Hkey Hcand Hpre Hpost. unfold match_json. rewrite Hkey, Hcand.
  destruct (sort_by_len_first_shortest c post Hpost pre Hpre) as [rest ->].
  reflexivity.
Qed.

Lemma tie_goes_to_first_listed_witness :
  match_json ["rec/dev001b.csv"; "rec/dev001a.csv"] "rec/dev001_info.json"
  = Some {| sess_json := "rec/dev001_info.json";
            sess_csv := "rec/dev001b.csv"; sess_name := "dev001" |}.
Proof.
  apply (tie_goes_to_first_listed ["rec/dev001b.csv"; "rec/dev001a.csv"]
           "rec/dev001_info.json" "dev001" "rec/dev001b.csv" []
           ["rec/dev001a.csv"]).
  - reflexivity.
  - reflexivity.
  - intros p [].
  - intros q [<-|[]]. vm_compute. lia.
Defined.

(** A metadata file without a measurement file of its key is passed over
    without an error: no session names it, and the sessions are never more
    than the metadata files. *)
Theorem unmatched_metadata_skipped (walk : list (string * list string))
    (all_jsons all_csvs : list string) (json_path key : string) :
  collect walk = (all_jsons, all_csvs) ->
  base_key json_path = Some key ->
  candidates key all_csvs = [] ->
  (forall s, In s (find_emotibit_sessions walk) -> sess_json s <> json_path) /\
  (List.length (find_emotibit_sessions walk) <= List.length all_jsons)%nat.
Proof.
  intros Hw Hkey Hcand. unfold find_emotibit_sessions. rewrite Hw. split.
  - intros s Hs Hj. apply sessions_of_In in Hs.
    destruct Hs as (j & _ & Hm).
    destruct (match_json_ok _ _ _ Hm) as (Hsj & Hk & Hc).
    rewrite Hsj in Hj. subst j. rewrite Hkey in Hk. injection Hk as Hk.
    rewrite <- Hk, Hcand in Hc. destruct Hc.
  - unfold sessions_of. clear. induction all_jsons as [|j js IH]; simpl.
    + lia.
    + rewrite length_app. destruct (match_json all_csvs j); simpl; lia.
Qed.

Lemma unmatched_metadata_skipped_witness :
  (forall s, In s (find_emotibit_sessions unmatched_walk) ->
             sess_json s <> "rec/dev001_info.json") /\
  (List.length (find_emotibit_sessions unmatched_walk) <= 1)%nat.
Proof.
  apply (unmatched_metadata_skipped unmatched_walk ["rec/dev001_info.json"]
           ["rec/other.csv"] "rec/dev001_info.json" "dev001");
    reflexivity.
Defined.

(** ** The handler *)








Lemma collect_no_info (walk : list (string * list string)) :
  (forall root fnames f, In (root, fnames) walk -> In f fnames ->
                         contains "_info" (lower f) = false) ->
  fst (collect walk) = [].
Proof.
  intros Hno. destruct (fst (collect walk)) as [|j js] eqn:Hj; [reflexivity|].
  destruct (proj1 (collect_In j walk)) as (r & f & Hl & _ & _ & Hi).
  - rewrite Hj. now left.
  - destruct Hl as ((fnames & Hw & Hf) & _). rewrite (Hno r fnames f) in Hi;
      [discriminate | assumption | assumption].
Qed.

Lemma collect_no_csv (walk : list (string * list string)) :
  (forall root fnames f, In (root, fnames) walk -> In f fnames ->
                         endswith ".csv" (lower f) = false) ->
  snd (collect walk) = [].
Proof.
  intros Hno. destruct (snd (collect walk)) as [|c cs] eqn:Hc; [reflexivity|].
  destruct (proj2 (collect_In c walk)) as (r & f & Hl & _ & Hi).
  - rewrite Hc. now left.
  - destruct Hl as ((fnames & Hw & Hf) & _). rewrite (Hno r fnames f) in Hi;
      [discriminate | assumption | assumption].
Qed.

Lemma sessions_of_no_csv : forall all_jsons : list string,
  sessions_of all_jsons [] = [].
Proof.
  unfold sessions_of. induction all_jsons as [|j js IH]; simpl.
  - reflexivity.
  - rewrite IH. unfold match_json. destruct (base_key j); reflexivity.
Qed.

(** An archive in which no file name holds "_info", or none ends in ".csv",
    gives the "no pair" message; no file of it is opened, so the outcome is
    the same whatever the files hold. *)
Theorem archive_without_pair_reported (H : host)
    (walk : list (string * list string)) (fs : files) :
  (forall root fnames f, In (root, fnames) walk -> In f fnames ->
                         contains "_info" (lower f) = false) \/
  (forall root fnames f, In (root, fnames) walk -> In f fnames ->
                         endswith ".csv" (lower f) = false) ->
  convert H walk fs = NoSessions.
Proof.
  intros Hno. unfold convert.
  assert (Hs : find_emotibit_sessions walk = []).
  { unfold find_emotibit_sessions.
    destruct (collect walk) as [all_jsons all_csvs] eqn:Hw.
    destruct Hno as [Hno|Hno].
    - apply collect_no_info in Hno. rewrite Hw in Hno. simpl in Hno.
      now subst.
    - apply collect_no_csv in Hno. rewrite Hw in Hno. simpl in Hno.
      subst. apply sessions_of_no_csv. }
  now rewrite Hs.
Qed.

Lemma archive_without_pair_reported_witness :
  convert example_host plain_walk accel_files = NoSessions.
Proof.
  apply (archive_without_pair_reported example_host plain_walk accel_files).
  left. intros root fnames f [Hw|[]] Hf. injection Hw as <- <-.
  destruct Hf as [<-|[<-|[]]]; reflexivity.
Defined.
